(** * Daily Diet API: a shallow embedding of [dd.js]

    The Express handlers of [dd.js] are embedded as functions over an
    explicit database state.  A handler either sends a response or lets
    the promise of its [async] body reject (nothing in the file catches a
    rejected [await]).  The two tables follow the schema the file
    declares with knex: [increments] primary keys, [notNullable] columns
    and the [unique] constraint on [users.email]. *)

From Stdlib Require Import ZArith List String Ascii DecimalString Bool Lia
  Permutation.
Import ListNotations.

Local Open Scope string_scope.
Local Open Scope Z_scope.

(** ** JavaScript values carried by request bodies and table rows *)

(** The scalar JSON values a request body field can hold, plus
    [undefined] for a field that is absent from the body.  A number is
    carried by [JNum] when it is an integer of at most 15 decimal digits;
    JSON numbers with a fraction, and larger ones, which a double rounds
    and SQLite writes with an exponent, have no counterpart here. *)
Inductive jsval : Type :=
| JUndefined
| JNull
| JBool (b : bool)
| JNum (n : Z)
| JStr (s : string).

(** JavaScript truthiness, as used by [m.on_diet] and [!user]. *)
Definition truthy (v : jsval) : bool :=
  match v with
  | JUndefined | JNull => false
  | JBool b => b
  | JNum n => negb (n =? 0)
  | JStr s => negb (s =? "")%string
  end.

Definition jsval_eqb (a b : jsval) : bool :=
  match a, b with
  | JUndefined, JUndefined => true
  | JNull, JNull => true
  | JBool x, JBool y => Bool.eqb x y
  | JNum x, JNum y => x =? y
  | JStr x, JStr y => (x =? y)%string
  | _, _ => false
  end.

(** What reaches SQLite for a bound value: [useNullAsDefault] turns an
    [undefined] insert value into NULL and the sqlite3 dialect binds a
    boolean as 0 or 1. *)
Definition bind_value (v : jsval) : jsval :=
  match v with
  | JUndefined => JNull
  | JBool b => JNum (if b then 1 else 0)
  | _ => v
  end.

(** ** Column affinity

    The columns declared [string] are [varchar(255)] and have TEXT
    affinity: a number stored in them becomes the text that spells it.
    The columns declared [boolean] and [datetime] have NUMERIC affinity:
    text that spells an integer is stored in them as that integer.  The
    same conversion is applied to a value compared with such a column. *)

Definition char_code (c : ascii) : Z := Z.of_N (N_of_ascii c).

(** Space, tab, line feed, vertical tab, form feed, carriage return. *)
Definition is_space (c : ascii) : bool :=
  (char_code c =? 32) || ((9 <=? char_code c) && (char_code c <=? 13)).

Definition is_digit (c : ascii) : bool :=
  (48 <=? char_code c) && (char_code c <=? 57).

(** A character that can occur in a numeric literal: space, digit, sign,
    decimal point or exponent mark. *)
Definition numeric_char (c : ascii) : bool :=
  is_space c || is_digit c
  || (char_code c =? 43) || (char_code c =? 45) || (char_code c =? 46)
  || (char_code c =? 101) || (char_code c =? 69).

Fixpoint all_numeric (s : string) : bool :=
  match s with
  | EmptyString => true
  | String c rest => numeric_char c && all_numeric rest
  end.

(** Text with a character no numeric literal contains; NUMERIC affinity
    leaves such text alone. *)
Definition non_numeric_text (s : string) : bool := negb (all_numeric s).

Fixpoint skip_spaces (s : string) : string :=
  match s with
  | EmptyString => s
  | String c rest => if is_space c then skip_spaces rest else s
  end.

Fixpoint all_spaces (s : string) : bool :=
  match s with
  | EmptyString => true
  | String c rest => is_space c && all_spaces rest
  end.

(** The rest of an integer literal after its first digits, of value
    [acc]: more digits, then only spaces. *)
Fixpoint digits_then_spaces (s : string) (acc : Z) : option Z :=
  match s with
  | EmptyString => Some acc
  | String c rest =>
      if is_digit c then digits_then_spaces rest (10 * acc + (char_code c - 48))
      else if all_spaces s then Some acc
      else None
  end.

Definition unsigned_literal (s : string) : option Z :=
  match s with
  | EmptyString => None
  | String c rest =>
      if is_digit c then digits_then_spaces rest (char_code c - 48) else None
  end.

(** The integer a text spells: spaces, an optional sign, digits, spaces.
    Text that spells a number with a fraction or an exponent is converted
    by SQLite as well, to a number [jsval] cannot hold; such text has no
    counterpart here. *)
Definition integer_literal (s : string) : option Z :=
  match skip_spaces s with
  | EmptyString => None
  | String c rest =>
      if char_code c =? 45 then option_map Z.opp (unsigned_literal rest)
      else if char_code c =? 43 then unsigned_literal rest
      else unsigned_literal (String c rest)
  end.

Definition decimal (n : Z) : string := NilZero.string_of_int (Z.to_int n).

(** The driver binds a number as an integer when it fits 32 bits and as
    a floating point number otherwise. *)
Definition fits_int32 (n : Z) : bool :=
  (-2147483648 <=? n) && (n <=? 2147483647).

(** TEXT affinity.  An integer becomes its decimal text; an integral
    floating point number is written with a trailing [.0] (in this plain
    form up to 15 digits). *)
Definition text_affinity (v : jsval) : jsval :=
  match v with
  | JNum n => JStr (if fits_int32 n then decimal n else decimal n ++ ".0")
  | _ => v
  end.

(** NUMERIC affinity. *)
Definition numeric_affinity (v : jsval) : jsval :=
  match v with
  | JStr s =>
      match integer_literal s with
      | Some n => JNum n
      | None => v
      end
  | _ => v
  end.

(** What a [string] column, or a [boolean] or [datetime] column, holds
    once a body value is written to it. *)
Definition store_text (v : jsval) : jsval := text_affinity (bind_value v).

Definition store_numeric (v : jsval) : jsval :=
  numeric_affinity (bind_value v).

Definition is_null (v : jsval) : bool :=
  match v with JNull => true | _ => false end.

Definition is_undefined (v : jsval) : bool :=
  match v with JUndefined => true | _ => false end.

(** ** Tables *)

(** A row of [users]: id, name, email, password (the bcrypt hash). *)
Record user : Type := mkUser {
  u_id : Z;
  u_name : jsval;
  u_email : jsval;
  u_password : jsval
}.

(** A row of [meals]: id, name, description, datetime, on_diet, user_id. *)
Record meal : Type := mkMeal {
  m_id : Z;
  m_name : jsval;
  m_description : jsval;
  m_datetime : jsval;
  m_on_diet : jsval;
  m_user_id : Z
}.

(** The database file: each table in rowid order together with the
    counter of its autoincrement key. *)
Record db : Type := mkDb {
  users : list user;
  users_seq : Z;
  meals : list meal;
  meals_seq : Z
}.

Definition empty_db : db := mkDb [] 0 [] 0.

Definition set_meals (d : db) (ms : list meal) : db :=
  mkDb (users d) (users_seq d) ms (meals_seq d).

(** ** Failures and responses *)

(** The ways an awaited library call rejects. *)
Inductive error : Type :=
| NotNullConstraint (column : string)
| UniqueConstraint (column : string)
| UndefinedBinding (column : string)
| EmptyUpdate
| BcryptIllegalArguments
| SecretMissing.

Inductive result (A : Type) : Type :=
| Ok (a : A)
| Err (e : error).
Arguments Ok {A} a.
Arguments Err {A} e.

(** A knex query or an async handler body: it runs against the database
    and resolves or rejects. *)
Definition query (A : Type) : Type := db -> result A * db.

Definition ret {A} (a : A) : query A := fun d => (Ok a, d).

Definition reject {A} (e : error) : query A := fun d => (Err e, d).

Definition bind {A B} (q : query A) (k : A -> query B) : query B :=
  fun d =>
    match q d with
    | (Ok a, d') => k a d'
    | (Err e, d') => (Err e, d')
    end.

Notation "x <- q ;; k" := (bind q (fun x => k))
  (at level 61, q at next level, right associativity).
Notation "q ;;; k" := (bind q (fun _ => k))
  (at level 61, right associativity).

(** A session token as [jwt.sign] builds it: the payload [{ id, iat, exp }]
    and the signature over it. *)
Record claims : Type := mkClaims {
  c_id : Z;
  c_iat : Z;
  c_exp : Z
}.

Record token : Type := mkToken {
  t_payload : claims;
  t_signature : string
}.

(** The JSON bodies the handlers send. *)
Inductive json : Type :=
| JError (msg : string)
| JMessage (msg : string)
| JToken (t : token)
| JMeal (m : meal)
| JMeals (ms : list meal)
| JMetrics (total inside outside bestSequence : Z).

Record response : Type := mkResponse {
  status : Z;
  body : json
}.

(** [res.json(b)] sends status 200 unless [res.status] was called. *)
Definition res_json (b : json) : response := mkResponse 200 b.

(** ** Meal queries *)

(** The four body fields of the meal routes. *)
Record meal_fields : Type := mkFields {
  f_name : jsval;
  f_description : jsval;
  f_datetime : jsval;
  f_on_diet : jsval
}.

(** [where({ user_id })] *)
Definition owned_by (uid : Z) (m : meal) : bool := m_user_id m =? uid.

(** [where({ id, user_id })] *)
Definition matches (id uid : Z) (m : meal) : bool :=
  (m_id m =? id) && (m_user_id m =? uid).

(** [db('meals').where({ user_id })]: without an ORDER BY the rows come
    in table order. *)
Definition select_meals (uid : Z) : query (list meal) :=
  fun d => (Ok (filter (owned_by uid) (meals d)), d).

(** [db('meals').where({ id, user_id }).first()] *)
Definition first_meal (id uid : Z) : query (option meal) :=
  fun d => (Ok (find (matches id uid) (meals d)), d).

(** The first NOT NULL column of [meals] that a row leaves NULL. *)
Definition meal_not_null (name datetime on_diet : jsval) : option error :=
  if is_null name then Some (NotNullConstraint "meals.name")
  else if is_null datetime then Some (NotNullConstraint "meals.datetime")
  else if is_null on_diet then Some (NotNullConstraint "meals.on_diet")
  else None.

(** [db('meals').insert({ name, description, datetime, on_diet, user_id })] *)
Definition insert_meal (f : meal_fields) (uid : Z) : query Z :=
  fun d =>
    let name := store_text (f_name f) in
    let description := store_text (f_description f) in
    let datetime := store_numeric (f_datetime f) in
    let on_diet := store_numeric (f_on_diet f) in
    match meal_not_null name datetime on_diet with
    | Some e => (Err e, d)
    | None =>
        let id := meals_seq d + 1 in
        (Ok id,
         mkDb (users d) (users_seq d)
              (meals d ++ [mkMeal id name description datetime on_diet uid])
              id)
    end.

(** knex leaves an [undefined] value out of the SET list of an update. *)
Definition set_column (store : jsval -> jsval) (new old : jsval) : jsval :=
  if is_undefined new then old else store new.

Definition update_row (f : meal_fields) (m : meal) : meal :=
  mkMeal (m_id m)
         (set_column store_text (f_name f) (m_name m))
         (set_column store_text (f_description f) (m_description m))
         (set_column store_numeric (f_datetime f) (m_datetime m))
         (set_column store_numeric (f_on_diet f) (m_on_diet m))
         (m_user_id m).

Definition no_values (f : meal_fields) : bool :=
  is_undefined (f_name f) && is_undefined (f_description f)
  && is_undefined (f_datetime f) && is_undefined (f_on_diet f).

Fixpoint first_violation (rows : list meal) : option error :=
  match rows with
  | [] => None
  | m :: rows' =>
      match meal_not_null (m_name m) (m_datetime m) (m_on_diet m) with
      | Some e => Some e
      | None => first_violation rows'
      end
  end.

(** [db('meals').where({ id, user_id }).update({ ... })]: knex refuses an
    update without values; SQLite checks NOT NULL on the rows it
    rewrites, so only when some row matches. *)
Definition update_meals (id uid : Z) (f : meal_fields) : query Z :=
  fun d =>
    if no_values f then (Err EmptyUpdate, d)
    else
      let hit := filter (matches id uid) (meals d) in
      match first_violation (map (update_row f) hit) with
      | Some e => (Err e, d)
      | None =>
          (Ok (Z.of_nat (List.length hit)),
           set_meals d
             (map (fun m => if matches id uid m then update_row f m else m)
                  (meals d)))
      end.

(** [db('meals').where({ id, user_id }).del()] *)
Definition del_meals (id uid : Z) : query Z :=
  fun d =>
    (Ok (Z.of_nat (List.length (filter (matches id uid) (meals d)))),
     set_meals d (filter (fun m => negb (matches id uid m)) (meals d))).

(** ** Meal routes, after [authenticate] has set [req.userId] *)

(** [POST /meals] *)
Definition post_meals (userId : Z) (f : meal_fields) : query response :=
  insert_meal f userId ;;;
  ret (mkResponse 201 (JMessage "Meal added")).

(** [GET /meals] *)
Definition get_meals (userId : Z) : query response :=
  ms <- select_meals userId ;;
  ret (res_json (JMeals ms)).

(** [GET /meals/:id]; the [:id] segment is compared with the integer
    key, so it is taken as the integer it spells. *)
Definition get_meal (userId id : Z) : query response :=
  meal <- first_meal id userId ;;
  match meal with
  | None => ret (mkResponse 404 (JError "Meal not found"))
  | Some m => ret (res_json (JMeal m))
  end.

(** [PUT /meals/:id] *)
Definition put_meal (userId id : Z) (f : meal_fields) : query response :=
  update_meals id userId f ;;;
  ret (res_json (JMessage "Meal updated")).

(** [DELETE /meals/:id] *)
Definition delete_meal (userId id : Z) : query response :=
  del_meals id userId ;;;
  ret (res_json (JMessage "Meal deleted")).

(** ** Metrics *)

(** The loop of [GET /metrics]: one step on the pair (bestSeq, current). *)
Definition streak_step (st : Z * Z) (m : meal) : Z * Z :=
  let (bestSeq, current) := st in
  let current := if truthy (m_on_diet m) then current + 1 else 0 in
  let bestSeq := if current >? bestSeq then current else bestSeq in
  (bestSeq, current).

Definition bestSequence (ms : list meal) : Z :=
  fst (fold_left streak_step ms (0, 0)).

Definition metrics (ms : list meal) : json :=
  let total := Z.of_nat (List.length ms) in
  let inside := Z.of_nat (List.length (filter (fun m => truthy (m_on_diet m)) ms)) in
  let outside := total - inside in
  JMetrics total inside outside (bestSequence ms).

(** [GET /metrics] *)
Definition get_metrics (userId : Z) : query response :=
  ms <- select_meals userId ;;
  ret (res_json (metrics ms)).

(** ** Credentials and session tokens *)

(** One field of the [Authorization] header after [split(' ')]: text that
    is not a JWT, or the compact serialisation of a token. *)
Inductive chunk : Type :=
| Text (s : string)
| Jwt (t : token).

(** The errors [jwt.verify] hands to its callback. *)
Inductive jwt_error : Type :=
| JsonWebTokenError
| TokenExpiredError.

(** The fields of the [POST /users] body. *)
Record user_fields : Type := mkUserFields {
  r_name : jsval;
  r_email : jsval;
  r_password : jsval
}.

(** The fields of the [POST /login] body. *)
Record login_fields : Type := mkLoginFields {
  l_email : jsval;
  l_password : jsval
}.

Section Auth.

(** [bcrypt.hash(s, rounds)] with the salt it draws made explicit, and
    [bcrypt.compare(s, hash)]. *)
Variable bcrypt_hash : string -> Z -> string -> string.
Variable bcrypt_compare : string -> string -> bool.

(** The HS256 signature of a payload under a key. *)
Variable hs256 : string -> claims -> string.

(** [process.env.JWT_SECRET] *)
Variable JWT_SECRET : option string.

(** [bcrypt.hash(password, 8)] rejects unless [password] is a string. *)
Definition hash_password (password : jsval) (salt : string) : query string :=
  match password with
  | JStr s => ret (bcrypt_hash s 8 salt)
  | _ => reject BcryptIllegalArguments
  end.

(** [bcrypt.compare(password, user.password)] rejects unless both are
    strings. *)
Definition compare_password (password stored : jsval) : query bool :=
  match password, stored with
  | JStr s, JStr h => ret (bcrypt_compare s h)
  | _, _ => reject BcryptIllegalArguments
  end.

Definition email_taken (email : jsval) (us : list user) : bool :=
  existsb (fun u => jsval_eqb (u_email u) email) us.

(** [db('users').insert({ name, email, password: hash })] *)
Definition insert_user (name email : jsval) (hash : string) : query Z :=
  fun d =>
    let name := store_text name in
    let email := store_text email in
    if is_null name then (Err (NotNullConstraint "users.name"), d)
    else if is_null email then (Err (NotNullConstraint "users.email"), d)
    else if email_taken email (users d)
    then (Err (UniqueConstraint "users.email"), d)
    else
      let id := users_seq d + 1 in
      (Ok id,
       mkDb (users d ++ [mkUser id name email (JStr hash)]) id
            (meals d) (meals_seq d)).

(** [db('users').where({ email }).first()]: knex refuses to compile a
    where clause with an [undefined] value. *)
Definition first_user (email : jsval) : query (option user) :=
  fun d =>
    if is_undefined email then (Err (UndefinedBinding "email"), d)
    else
      (Ok (find (fun u => jsval_eqb (u_email u) (store_text email)) (users d)),
       d).

(** [jwt.sign({ id }, process.env.JWT_SECRET, { expiresIn: '1d' })] at
    clock reading [now] (seconds): [iat] is the clock, [exp] is a day
    of seconds later. *)
Definition jwt_sign (id now : Z) : result token :=
  match JWT_SECRET with
  | None => Err SecretMissing
  | Some key =>
      if (key =? "")%string then Err SecretMissing
      else
        let payload := mkClaims id now (now + 86400) in
        Ok (mkToken payload (hs256 key payload))
  end.

(** [jwt.verify(token, process.env.JWT_SECRET, callback)] at clock
    reading [now]: the callback gets an error or the decoded payload. *)
Definition jwt_verify (tok : option chunk) (now : Z) : jwt_error + claims :=
  match tok with
  | None | Some (Text _) => inl JsonWebTokenError
  | Some (Jwt t) =>
      match JWT_SECRET with
      | None => inl JsonWebTokenError
      | Some key =>
          if (key =? "")%string then inl JsonWebTokenError
          else if negb (t_signature t =? hs256 key (t_payload t))%string
          then inl JsonWebTokenError
          else if now >=? c_exp (t_payload t) then inl TokenExpiredError
          else inr (t_payload t)
      end
  end.

(** [!authHeader]: the header is absent or the empty string. *)
Definition no_header (authHeader : option (list chunk)) : bool :=
  match authHeader with
  | None | Some [] | Some [Text ""] => true
  | _ => false
  end.

(** The [authenticate] middleware: it responds 401 or continues with
    [req.userId]. *)
Definition authenticate (authHeader : option (list chunk)) (now : Z)
  : response + Z :=
  if no_header authHeader
  then inl (mkResponse 401 (JError "Token required"))
  else
    let token :=
      match authHeader with
      | Some fields => nth_error fields 1
      | None => None
      end in
    match jwt_verify token now with
    | inl _ => inl (mkResponse 401 (JError "Invalid token"))
    | inr decoded => inr (c_id decoded)
    end.

(** A route guarded by [authenticate]. *)
Definition guarded (authHeader : option (list chunk)) (now : Z)
           (next : Z -> query response) : query response :=
  match authenticate authHeader now with
  | inl r => ret r
  | inr userId => next userId
  end.

(** [POST /users] *)
Definition post_users (salt : string) (b : user_fields) : query response :=
  hash <- hash_password (r_password b) salt ;;
  insert_user (r_name b) (r_email b) hash ;;;
  ret (mkResponse 201 (JMessage "User created")).

(** [POST /login] *)
Definition post_login (now : Z) (b : login_fields) : query response :=
  user <- first_user (l_email b) ;;
  match user with
  | None => ret (mkResponse 401 (JError "Invalid credentials"))
  | Some u =>
      ok <- compare_password (l_password b) (u_password u) ;;
      if ok
      then
        match jwt_sign (u_id u) now with
        | Ok token => ret (res_json (JToken token))
        | Err e => reject e
        end
      else ret (mkResponse 401 (JError "Invalid credentials"))
  end.

End Auth.

(** ** The error kinds of the interface, read off the status sent *)

Inductive error_kind : Type :=
| ValidationError
| Unauthorized
| Conflict
| NotFound.

Definition kind_of_status (s : Z) : option error_kind :=
  if s =? 400 then Some ValidationError
  else if s =? 422 then Some ValidationError
  else if s =? 401 then Some Unauthorized
  else if s =? 409 then Some Conflict
  else if s =? 404 then Some NotFound
  else None.

(** The kind a caller sees: a response carries the kind of its status, a
    rejected handler sends nothing and carries none. *)
Definition failure_kind (o : result response) : option error_kind :=
  match o with
  | Ok r => kind_of_status (status r)
  | Err _ => None
  end.

(** A handler run that succeeded: a response with a 2xx status. *)
Definition succeeded (o : result response) : bool :=
  match o with
  | Ok r => (200 <=? status r) && (status r <? 300)
  | Err _ => false
  end.

(** ** The metrics of section 4.4 as the specification words them *)

(** The compliance flag of a row as JavaScript reads it. *)
Definition onDiet (m : meal) : bool := truthy (m_on_diet m).

(** The left-to-right scan: [current] is incremented on a compliant meal
    and reset on any other, [best] is the maximum seen. *)
Fixpoint spec_scan (flags : list bool) (best current : Z) : Z :=
  match flags with
  | [] => best
  | flag :: rest =>
      let current' := if flag then current + 1 else 0 in
      spec_scan rest (Z.max best current') current'
  end.

Definition spec_bestStreak (flags : list bool) : Z := spec_scan flags 0 0.

(** The number of compliant meals. *)
Fixpoint spec_inside (flags : list bool) : Z :=
  match flags with
  | [] => 0
  | flag :: rest => (if flag then 1 else 0) + spec_inside rest
  end.

(** ** Order-preserving selection *)

Inductive subseq {A : Type} : list A -> list A -> Prop :=
| subseq_nil : subseq [] []
| subseq_skip (x : A) (l1 l2 : list A) : subseq l1 l2 -> subseq l1 (x :: l2)
| subseq_keep (x : A) (l1 l2 : list A) : subseq l1 l2 -> subseq (x :: l1) (x :: l2).

(** ** Database invariant *)

(** Primary keys are unique and never exceed the autoincrement counter;
    the NOT NULL and UNIQUE constraints of the schema hold. *)
Record wf_db (d : db) : Prop := mkWf {
  wf_meal_ids : NoDup (map m_id (meals d));
  wf_meal_seq : Forall (fun m => m_id m <= meals_seq d) (meals d);
  wf_user_ids : NoDup (map u_id (users d));
  wf_user_seq : Forall (fun u => u_id u <= users_seq d) (users d);
  wf_emails : NoDup (map u_email (users d))
}.

(** No row answers [where({ id, user_id })]: the id is absent or every
    row carrying it belongs to someone else. *)
Definition no_owned_row (id uid : Z) (ms : list meal) : Prop :=
  forall m, In m ms -> m_id m = id -> m_user_id m <> uid.

(** ** A sample database: two identities, three meals *)

Definition sample_meals : list meal :=
  [ mkMeal 1 (JStr "oats") JNull (JStr "2024-01-01T08:00") (JNum 1) 1;
    mkMeal 2 (JStr "cake") JNull (JStr "2024-01-01T16:00") (JNum 0) 2;
    mkMeal 3 (JStr "soup") (JStr "lentil") (JStr "2024-01-01T20:00") (JNum 1) 1 ].

Definition sample_users : list user :=
  [ mkUser 1 (JStr "Ana") (JStr "ana@example.com") (JStr "hash-a");
    mkUser 2 (JStr "Bia") (JStr "bia@example.com") (JStr "hash-b") ].

Definition sample_db : db := mkDb sample_users 2 sample_meals 3.

(** A week of one owner, compliant on days 1, 2, 4, 5 and 6. *)
Definition week_meal (id : Z) (flag : bool) : meal :=
  mkMeal id (JStr "meal") JNull (JStr "2024-01-01T12:00")
         (JNum (if flag then 1 else 0)) 1.

Definition week : list meal :=
  [ week_meal 1 true; week_meal 2 true; week_meal 3 false; week_meal 4 true;
    week_meal 5 true; week_meal 6 true; week_meal 7 false ].

(** The 404 of [GET /meals/:id]. *)
Definition meal_not_found : response :=
  mkResponse 404 (JError "Meal not found").

(** A full replacement body for [PUT /meals/:id]. *)
Definition sample_fields : meal_fields :=
  mkFields (JStr "salad") (JStr "no dressing") (JStr "2024-01-02T12:00")
           (JBool true).

(** [sample_db] once identity 1 has deleted its meal 1. *)
Definition sample_db_without_1 : db :=
  mkDb sample_users 2
       [ mkMeal 2 (JStr "cake") JNull (JStr "2024-01-01T16:00") (JNum 0) 2;
         mkMeal 3 (JStr "soup") (JStr "lentil") (JStr "2024-01-01T20:00")
                (JNum 1) 1 ]
       3.

(** A field the body leaves out or sets to [null]. *)
Definition missing (v : jsval) : bool := is_undefined v || is_null v.

(** The shape section 4.3 asks of the create fields: a name that is a
    string, a timestamp given as a string, a boolean flag. *)
Definition spec_valid_fields (f : meal_fields) : bool :=
  match f_name f, f_datetime f, f_on_diet f with
  | JStr _, JStr _, JBool _ => true
  | _, _, _ => false
  end.

(** A create body whose flag is not a boolean. *)
Definition malformed_fields : meal_fields :=
  mkFields (JStr "snack") JUndefined (JStr "2024-01-02T10:00") (JStr "maybe").

(** A create body without a name. *)
Definition nameless_fields : meal_fields :=
  mkFields JUndefined JUndefined (JStr "2024-01-02T10:00") (JBool true).

(** Stand-ins for the hashing and signing primitives in the examples. *)
Definition sample_hash (s : string) (rounds : Z) (salt : string) : string :=
  salt ++ s.

Definition sample_compare (s h : string) : bool := (h =? "hash-" ++ s)%string.

Definition sample_hs256 (key : string) (payload : claims) : string := key.

(** A registration that reuses the email of identity 1. *)
Definition duplicate_registration : user_fields :=
  mkUserFields (JStr "Ana again") (JStr "ana@example.com") (JStr "secret").

(** The 401 of [POST /login]. *)
Definition invalid_credentials : response :=
  mkResponse 401 (JError "Invalid credentials").

(** The 401 of [authenticate] for a token [jwt.verify] refuses. *)
Definition invalid_token : response :=
  mkResponse 401 (JError "Invalid token").

(** No identity has this email. *)
Definition unknown_email (email : string) (us : list user) : Prop :=
  forall u, In u us -> u_email u <> JStr email.

(** The header [Bearer <token>]. *)
Definition bearer (t : token) : option (list chunk) :=
  Some [Text "Bearer"; Jwt t].

(** The 401 of [authenticate] for a request without a header. *)
Definition token_required : response :=
  mkResponse 401 (JError "Token required").

(** A token whose signature was not made with the server's key. *)
Definition forged_token : token :=
  mkToken (mkClaims 1 1000 87400) "guess".

(** Body values a [string] column keeps as they are bound: a text, or
    nothing. *)
Definition text_value (v : jsval) : bool :=
  match v with
  | JUndefined | JNull | JStr _ => true
  | _ => false
  end.

(** Body values a [boolean] or [datetime] column keeps as they are
    bound: nothing, a boolean, a 32-bit integer, or a text no numeric
    literal can be. *)
Definition numeric_value (v : jsval) : bool :=
  match v with
  | JUndefined | JNull | JBool _ => true
  | JNum n => fits_int32 n
  | JStr s => non_numeric_text s
  end.

(** * Properties *)

(** ** Column affinity *)

Lemma is_space_numeric (c : ascii) : is_space c = true -> numeric_char c = true.
Proof. intros H. unfold numeric_char. rewrite H. reflexivity. Qed.

Lemma is_digit_numeric (c : ascii) : is_digit c = true -> numeric_char c = true.
Proof.
  intros H. unfold numeric_char. rewrite H. rewrite orb_true_r. reflexivity.
Qed.

Lemma all_spaces_numeric (s : string) :
  all_spaces s = true -> all_numeric s = true.
Proof.
  induction s as [|c s IH]; simpl; intros H; [reflexivity|].
  apply andb_true_iff in H. destruct H as [Hc Hs].
  rewrite (is_space_numeric c Hc), (IH Hs). reflexivity.
Qed.

Lemma digits_then_spaces_numeric (s : string) (acc n : Z) :
  digits_then_spaces s acc = Some n -> all_numeric s = true.
Proof.
  revert acc. induction s as [|c s IH]; intros acc H; [reflexivity|].
  simpl in H. destruct (is_digit c) eqn:Hd.
  - simpl. rewrite (is_digit_numeric c Hd). exact (IH _ H).
  - destruct (is_space c && all_spaces s) eqn:Hsp; [|discriminate H].
    apply (all_spaces_numeric (String c s)). exact Hsp.
Qed.

Lemma unsigned_literal_numeric (s : string) (n : Z) :
  unsigned_literal s = Some n -> all_numeric s = true.
Proof.
  destruct s as [|c s]; simpl; intros H; [discriminate H|].
  destruct (is_digit c) eqn:Hd; [|discriminate H].
  rewrite (is_digit_numeric c Hd).
  exact (digits_then_spaces_numeric s _ n H).
Qed.

Lemma skip_spaces_numeric (s : string) :
  all_numeric (skip_spaces s) = true -> all_numeric s = true.
Proof.
  induction s as [|c s IH]; simpl; intros H; [reflexivity|].
  destruct (is_space c) eqn:Hc.
  - rewrite (is_space_numeric c Hc). exact (IH H).
  - exact H.
Qed.

Lemma integer_literal_numeric (s : string) (n : Z) :
  integer_literal s = Some n -> all_numeric s = true.
Proof.
  unfold integer_literal. intros H. apply skip_spaces_numeric.
  destruct (skip_spaces s) as [|c rest]; [discriminate H|].
  destruct (char_code c =? 45) eqn:Hminus.
  - destruct (unsigned_literal rest) as [k|] eqn:Hk; [|discriminate H].
    simpl. unfold numeric_char. rewrite Hminus, !orb_true_r.
    exact (unsigned_literal_numeric rest k Hk).
  - destruct (char_code c =? 43) eqn:Hplus.
    + simpl. unfold numeric_char. rewrite Hplus, !orb_true_r.
      exact (unsigned_literal_numeric rest n H).
    + exact (unsigned_literal_numeric _ n H).
Qed.

Lemma non_numeric_text_kept (s : string) :
  non_numeric_text s = true -> numeric_affinity (JStr s) = JStr s.
Proof.
  unfold non_numeric_text. intros H. apply negb_true_iff in H. simpl.
  destruct (integer_literal s) as [n|] eqn:Hn; [|reflexivity].
  rewrite (integer_literal_numeric s n Hn) in H. discriminate H.
Qed.

Lemma text_value_kept (v : jsval) :
  text_value v = true -> store_text v = bind_value v.
Proof. destruct v; simpl; intros H; try reflexivity; discriminate H. Qed.

Lemma numeric_value_kept (v : jsval) :
  numeric_value v = true -> store_numeric v = bind_value v.
Proof.
  destruct v; simpl; intros H; try reflexivity.
  unfold store_numeric. simpl bind_value. apply non_numeric_text_kept. exact H.
Qed.

Lemma missing_store_text (v : jsval) : is_null (store_text v) = missing v.
Proof. destruct v; reflexivity. Qed.

Lemma missing_store_numeric (v : jsval) : is_null (store_numeric v) = missing v.
Proof.
  destruct v; try reflexivity.
  unfold store_numeric. simpl. destruct (integer_literal s); reflexivity.
Qed.

(** ** Lists and lookups *)

Lemma filter_subseq {A : Type} (p : A -> bool) (l : list A) :
  subseq (filter p l) l.
Proof.
  induction l as [|x l IH]; simpl.
  - constructor.
  - destruct (p x); constructor; exact IH.
Qed.

Lemma matches_true (id uid : Z) (m : meal) :
  matches id uid m = true <-> m_id m = id /\ m_user_id m = uid.
Proof.
  unfold matches. rewrite andb_true_iff, !Z.eqb_eq. tauto.
Qed.

Lemma matches_false (id uid : Z) (m : meal) :
  matches id uid m = false <-> (m_id m = id -> m_user_id m <> uid).
Proof.
  unfold matches. rewrite andb_false_iff, !Z.eqb_neq. split.
  - intros [H|H]; tauto.
  - intros H. destruct (Z.eq_dec (m_id m) id); [right; auto | left; auto].
Qed.

Lemma no_owned_row_filter (id uid : Z) (ms : list meal) :
  no_owned_row id uid ms -> filter (matches id uid) ms = [].
Proof.
  unfold no_owned_row. induction ms as [|m ms IH]; intros H; simpl.
  - reflexivity.
  - assert (Hm : matches id uid m = false)
      by (apply matches_false; apply H; left; reflexivity).
    rewrite Hm. apply IH. intros m' Hin. apply H. right. exact Hin.
Qed.

Lemma no_owned_row_find (id uid : Z) (ms : list meal) :
  no_owned_row id uid ms -> find (matches id uid) ms = None.
Proof.
  unfold no_owned_row. induction ms as [|m ms IH]; intros H; simpl.
  - reflexivity.
  - assert (Hm : matches id uid m = false)
      by (apply matches_false; apply H; left; reflexivity).
    rewrite Hm. apply IH. intros m' Hin. apply H. right. exact Hin.
Qed.

Lemma find_unique_id (id uid : Z) (ms : list meal) (m : meal) :
  NoDup (map m_id ms) ->
  In m ms -> m_id m = id -> m_user_id m = uid ->
  find (matches id uid) ms = Some m.
Proof.
  induction ms as [|x ms IH]; intros Hnd Hin Hid Hown; simpl.
  - destruct Hin.
  - inversion Hnd as [|? ? Hx Hnd']; subst.
    destruct Hin as [->|Hin].
    + assert (Hm : matches (m_id m) (m_user_id m) m = true)
        by (apply matches_true; split; reflexivity).
      rewrite Hm. reflexivity.
    + destruct (matches (m_id m) (m_user_id m) x) eqn:Hx'.
      * apply matches_true in Hx'. destruct Hx' as [Hxid _].
        exfalso. apply Hx. rewrite Hxid. apply in_map. exact Hin.
      * apply IH; auto.
Qed.

Lemma map_no_match (id uid : Z) (g : meal -> meal) (ms : list meal) :
  no_owned_row id uid ms ->
  map (fun m => if matches id uid m then g m else m) ms = ms.
Proof.
  unfold no_owned_row. induction ms as [|m ms IH]; intros H; simpl.
  - reflexivity.
  - assert (Hm : matches id uid m = false)
      by (apply matches_false; apply H; left; reflexivity).
    rewrite Hm. f_equal. apply IH. intros m' Hin. apply H. right. exact Hin.
Qed.

Lemma filter_no_match (id uid : Z) (ms : list meal) :
  no_owned_row id uid ms ->
  filter (fun m => negb (matches id uid m)) ms = ms.
Proof.
  unfold no_owned_row. induction ms as [|m ms IH]; intros H; simpl.
  - reflexivity.
  - assert (Hm : matches id uid m = false)
      by (apply matches_false; apply H; left; reflexivity).
    rewrite Hm. simpl. f_equal. apply IH. intros m' Hin. apply H. right. exact Hin.
Qed.

Lemma set_meals_same (d : db) : set_meals d (meals d) = d.
Proof. destruct d; reflexivity. Qed.

Lemma sample_meal_ids : NoDup (map m_id (meals sample_db)).
Proof.
  simpl. repeat constructor; simpl; intuition discriminate.
Defined.

(** ** Reading meals *)

Lemma get_meal_unfold (userId id : Z) (d : db) :
  get_meal userId id d =
  match find (matches id userId) (meals d) with
  | None => (Ok meal_not_found, d)
  | Some m => (Ok (res_json (JMeal m)), d)
  end.
Proof.
  unfold get_meal, bind, first_meal, ret.
  destruct (find (matches id userId) (meals d)); reflexivity.
Qed.

(** C1. [GET /meals/:id] answers 404 "Meal not found" (kind NotFound)
    when no meal has the requested id and, with the very same response,
    when the meal with that id belongs to another identity; it answers
    with the meal exactly when a meal with that id is owned by the
    requester. *)
Theorem get_meal_owner_only (d : db) (A mealId : Z) :
  NoDup (map m_id (meals d)) ->
  ((forall m, In m (meals d) -> m_id m <> mealId) ->
   get_meal A mealId d = (Ok meal_not_found, d))
  /\ (forall m, In m (meals d) -> m_id m = mealId -> m_user_id m <> A ->
      get_meal A mealId d = (Ok meal_not_found, d))
  /\ failure_kind (Ok meal_not_found) = Some NotFound
  /\ (forall m, In m (meals d) -> m_id m = mealId -> m_user_id m = A ->
      get_meal A mealId d = (Ok (res_json (JMeal m)), d))
  /\ (forall o d', get_meal A mealId d = (o, d') -> succeeded o = true ->
      exists m, In m (meals d) /\ m_id m = mealId /\ m_user_id m = A
                /\ o = Ok (res_json (JMeal m)) /\ d' = d).
Proof.
  intros Hnd. repeat split.
  - intros Habs. rewrite get_meal_unfold, no_owned_row_find; [reflexivity|].
    intros m Hin Hid. exfalso. exact (Habs m Hin Hid).
  - intros m Hin Hid Hown. rewrite get_meal_unfold, no_owned_row_find; [reflexivity|].
    intros m' Hin' Hid' Hown'.
    assert (m' = m); [|subst; contradiction].
    clear Hown Hown'. subst mealId.
    induction (meals d) as [|x l IH]; [destruct Hin|].
    simpl in Hnd. inversion Hnd as [|? ? Hx Hnd']; subst.
    destruct Hin as [->|Hin], Hin' as [->|Hin'].
    + reflexivity.
    + exfalso. apply Hx. rewrite <- Hid'. apply in_map. exact Hin'.
    + exfalso. apply Hx. rewrite Hid'. apply in_map. exact Hin.
    + apply IH; assumption.
  - intros m Hin Hid Hown. rewrite get_meal_unfold.
    rewrite (find_unique_id mealId A (meals d) m); auto.
  - intros o d' Hrun Hok. rewrite get_meal_unfold in Hrun.
    destruct (find (matches mealId A) (meals d)) as [m|] eqn:Hfind.
    + inversion Hrun; subst. apply find_some in Hfind.
      destruct Hfind as [Hin Hm]. apply matches_true in Hm.
      exists m. tauto.
    + inversion Hrun; subst. discriminate Hok.
Qed.

Lemma get_meal_owner_only_witness :
  NoDup (map m_id (meals sample_db))
  /\ get_meal 1 2 sample_db = (Ok meal_not_found, sample_db)
  /\ get_meal 1 9 sample_db = (Ok meal_not_found, sample_db).
Proof.
  split; [exact sample_meal_ids|].
  destruct (get_meal_owner_only sample_db 1 9 sample_meal_ids) as [Habs _].
  destruct (get_meal_owner_only sample_db 1 2 sample_meal_ids) as [_ [Hfor _]].
  split.
  - apply (Hfor (mkMeal 2 (JStr "cake") JNull (JStr "2024-01-01T16:00") (JNum 0) 2)).
    + simpl. right. left. reflexivity.
    + reflexivity.
    + simpl. lia.
  - apply Habs. simpl. intros m [<-|[<-|[<-|[]]]]; simpl; lia.
Defined.

Lemma filter_split_perm {A : Type} (p : A -> bool) (l : list A) :
  Permutation l (filter p l ++ filter (fun x => negb (p x)) l).
Proof.
  induction l as [|x l IH]; simpl.
  - constructor.
  - destruct (p x); simpl.
    + constructor. exact IH.
    + apply Permutation_cons_app. exact IH.
Qed.

Lemma post_meals_unfold (userId : Z) (f : meal_fields) (d : db) :
  post_meals userId f d =
  match meal_not_null (store_text (f_name f)) (store_numeric (f_datetime f))
                      (store_numeric (f_on_diet f)) with
  | Some e => (Err e, d)
  | None =>
      (Ok (mkResponse 201 (JMessage "Meal added")),
       mkDb (users d) (users_seq d)
            (meals d ++ [mkMeal (meals_seq d + 1)
                                (store_text (f_name f))
                                (store_text (f_description f))
                                (store_numeric (f_datetime f))
                                (store_numeric (f_on_diet f)) userId])
            (meals_seq d + 1))
  end.
Proof.
  unfold post_meals, bind, insert_meal, ret.
  destruct (meal_not_null _ _ _); reflexivity.
Qed.

(** C2. [GET /meals] answers with the rows of [meals] whose [user_id] is
    the requester's: every such row and no other, in table order, which
    is insertion order: a meal the requester adds next comes last, and a
    meal another identity adds does not show. *)
Theorem get_meals_exactly_owned (d : db) (A : Z) :
  exists ms,
    get_meals A d = (Ok (res_json (JMeals ms)), d)
    /\ (forall m, In m ms <-> In m (meals d) /\ m_user_id m = A)
    /\ subseq ms (meals d)
    /\ (exists others,
           Permutation (meals d) (ms ++ others)
           /\ Forall (fun m => m_user_id m <> A) others)
    /\ (forall f o d',
           post_meals A f d = (o, d') -> succeeded o = true ->
           exists m, m_user_id m = A
                     /\ get_meals A d' = (Ok (res_json (JMeals (ms ++ [m]))), d'))
    /\ (forall B f o d',
           B <> A -> post_meals B f d = (o, d') ->
           get_meals A d' = (Ok (res_json (JMeals ms)), d')).
Proof.
  exists (filter (owned_by A) (meals d)).
  split; [reflexivity|]. split; [|split; [|split; [|split]]].
  - intros m. rewrite filter_In. unfold owned_by. rewrite Z.eqb_eq. tauto.
  - apply filter_subseq.
  - exists (filter (fun m => negb (owned_by A m)) (meals d)). split.
    + apply filter_split_perm.
    + apply Forall_forall. intros m Hin. apply filter_In in Hin.
      destruct Hin as [_ Hneg]. apply negb_true_iff in Hneg.
      apply Z.eqb_neq in Hneg. exact Hneg.
  - intros f o d' Hrun Hok. rewrite post_meals_unfold in Hrun.
    destruct (meal_not_null _ _ _).
    + inversion Hrun; subst. discriminate Hok.
    + inversion Hrun; subst. eexists. split; [|unfold get_meals, bind, select_meals, ret; simpl].
      2:{ rewrite filter_app. simpl. unfold owned_by at 2. simpl.
          rewrite Z.eqb_refl. reflexivity. }
      reflexivity.
  - intros B f o d' Hneq Hrun. rewrite post_meals_unfold in Hrun.
    destruct (meal_not_null _ _ _); inversion Hrun; subst; [reflexivity|].
    unfold get_meals, bind, select_meals, ret; simpl.
    rewrite filter_app. simpl. unfold owned_by at 2. simpl.
    apply Z.eqb_neq in Hneq. rewrite Hneq, app_nil_r. reflexivity.
Qed.

(** ** Metrics *)

Lemma streak_step_scan (ms : list meal) (best current : Z) :
  fst (fold_left streak_step ms (best, current)) =
  spec_scan (map onDiet ms) best current.
Proof.
  revert best current.
  induction ms as [|m ms IH]; intros best current; simpl.
  - reflexivity.
  - unfold onDiet at 1 2.
    set (c := if truthy (m_on_diet m) then current + 1 else 0).
    replace (if c >? best then c else best) with (Z.max best c).
    + apply IH.
    + destruct (Z.gtb_spec c best); lia.
Qed.

Lemma inside_count (ms : list meal) :
  Z.of_nat (List.length (filter (fun m => truthy (m_on_diet m)) ms)) =
  spec_inside (map onDiet ms).
Proof.
  induction ms as [|m ms IH]; simpl.
  - reflexivity.
  - unfold onDiet at 1. destruct (truthy (m_on_diet m)); simpl List.length.
    + rewrite Nat2Z.inj_succ, IH. lia.
    + rewrite IH. lia.
Qed.

(** C3. For every sequence of meals the metrics are: [total] the length,
    [inside] the number of compliant meals, [outside] their difference,
    and [bestSequence] the result of the left-to-right scan (increment on
    a compliant meal, reset otherwise, keep the maximum), which is 0 on
    the empty sequence; meals flagged
    [true, true, false, true, true, true, false] give 7, 5, 2 and 3.
    [GET /metrics] sends these metrics of the requester's meals. *)
Theorem metrics_scan (ms : list meal) :
  metrics ms =
    JMetrics (Z.of_nat (List.length ms))
             (spec_inside (map onDiet ms))
             (Z.of_nat (List.length ms) - spec_inside (map onDiet ms))
             (spec_bestStreak (map onDiet ms))
  /\ spec_bestStreak [] = 0
  /\ (map onDiet ms = [true; true; false; true; true; true; false] ->
      metrics ms = JMetrics 7 5 2 3)
  /\ (forall userId d,
        ms = filter (owned_by userId) (meals d) ->
        get_metrics userId d = (Ok (res_json (metrics ms)), d)).
Proof.
  assert (Heq : metrics ms =
    JMetrics (Z.of_nat (List.length ms))
             (spec_inside (map onDiet ms))
             (Z.of_nat (List.length ms) - spec_inside (map onDiet ms))
             (spec_bestStreak (map onDiet ms))).
  { unfold metrics, bestSequence, spec_bestStreak.
    rewrite inside_count, streak_step_scan. reflexivity. }
  split; [exact Heq|]. split; [reflexivity|]. split.
  - intros Hflags. rewrite Heq.
    replace (List.length ms) with (List.length (map onDiet ms))
      by apply length_map.
    rewrite Hflags. reflexivity.
  - intros userId d ->. reflexivity.
Qed.

Lemma metrics_scan_witness :
  map onDiet week = [true; true; false; true; true; true; false]
  /\ metrics week = JMetrics 7 5 2 3.
Proof.
  split; [reflexivity|].
  destruct (metrics_scan week) as [_ [_ [Hex _]]].
  apply Hex. reflexivity.
Defined.

(** ** Writing meals *)

Lemma update_meals_no_row (id uid : Z) (f : meal_fields) (d : db) :
  no_owned_row id uid (meals d) ->
  update_meals id uid f d =
  if no_values f then (Err EmptyUpdate, d) else (Ok 0, d).
Proof.
  intros Hno. unfold update_meals.
  destruct (no_values f); [reflexivity|].
  rewrite (no_owned_row_filter _ _ _ Hno). simpl.
  rewrite (map_no_match _ _ _ _ Hno), set_meals_same. reflexivity.
Qed.

Lemma del_meals_no_row (id uid : Z) (d : db) :
  no_owned_row id uid (meals d) -> del_meals id uid d = (Ok 0, d).
Proof.
  intros Hno. unfold del_meals.
  rewrite (no_owned_row_filter _ _ _ Hno), (filter_no_match _ _ _ Hno).
  rewrite set_meals_same. reflexivity.
Qed.

Lemma sample_foreign : no_owned_row 2 1 (meals sample_db).
Proof.
  intros m [<-|[<-|[<-|[]]]]; simpl; intros; lia.
Defined.

(** C4. What [PUT /meals/:id] does for a meal of another identity (meal 2
    of identity 2, requested by identity 1) and for an absent id (9): it
    answers 200 "Meal updated", a success and not a NotFound failure,
    while [GET /meals/:id] answers 404 for the same requests. *)
Theorem put_meal_reports_success_without_row :
  put_meal 1 2 sample_fields sample_db
    = (Ok (mkResponse 200 (JMessage "Meal updated")), sample_db)
  /\ put_meal 1 9 sample_fields sample_db
    = (Ok (mkResponse 200 (JMessage "Meal updated")), sample_db)
  /\ succeeded (fst (put_meal 1 2 sample_fields sample_db)) = true
  /\ failure_kind (fst (put_meal 1 2 sample_fields sample_db)) <> Some NotFound
  /\ failure_kind (fst (put_meal 1 9 sample_fields sample_db)) <> Some NotFound
  /\ failure_kind (fst (get_meal 1 2 sample_db)) = Some NotFound
  /\ failure_kind (fst (get_meal 1 9 sample_db)) = Some NotFound.
Proof.
  repeat split; try reflexivity; vm_compute; discriminate.
Qed.

(** C5. What [DELETE /meals/:id] does for a meal of another identity, for
    an absent id, and for a second delete of the same owned meal: each
    time it answers 200 "Meal deleted", a success and not a NotFound
    failure. *)
Theorem delete_meal_reports_success_without_row :
  delete_meal 1 2 sample_db
    = (Ok (mkResponse 200 (JMessage "Meal deleted")), sample_db)
  /\ delete_meal 1 9 sample_db
    = (Ok (mkResponse 200 (JMessage "Meal deleted")), sample_db)
  /\ delete_meal 1 1 sample_db
    = (Ok (mkResponse 200 (JMessage "Meal deleted")), sample_db_without_1)
  /\ delete_meal 1 1 sample_db_without_1
    = (Ok (mkResponse 200 (JMessage "Meal deleted")), sample_db_without_1)
  /\ failure_kind (fst (delete_meal 1 1 sample_db_without_1)) <> Some NotFound
  /\ failure_kind (fst (get_meal 1 1 sample_db_without_1)) = Some NotFound.
Proof.
  repeat split; try reflexivity; vm_compute; discriminate.
Qed.

(** C10. An update or a delete whose id is absent or names a meal of
    another identity leaves the whole database as it was, whatever the
    handler answers. *)
Theorem write_without_row_keeps_store
        (d : db) (A mealId : Z) (f : meal_fields) :
  no_owned_row mealId A (meals d) ->
  snd (put_meal A mealId f d) = d /\ snd (delete_meal A mealId d) = d.
Proof.
  intros Hno. split.
  - unfold put_meal, bind. rewrite (update_meals_no_row _ _ _ _ Hno).
    destruct (no_values f); reflexivity.
  - unfold delete_meal, bind. rewrite (del_meals_no_row _ _ _ Hno).
    reflexivity.
Qed.

Lemma write_without_row_keeps_store_witness :
  no_owned_row 2 1 (meals sample_db)
  /\ snd (put_meal 1 2 sample_fields sample_db) = sample_db
  /\ snd (delete_meal 1 2 sample_db) = sample_db.
Proof.
  split; [exact sample_foreign|].
  exact (write_without_row_keeps_store sample_db 1 2 sample_fields sample_foreign).
Defined.

Lemma other_owners_after_update (A mealId : Z) (f : meal_fields) (ms : list meal) :
  filter (fun m => negb (owned_by A m))
         (map (fun m => if matches mealId A m then update_row f m else m) ms)
  = filter (fun m => negb (owned_by A m)) ms.
Proof.
  induction ms as [|m ms IH]; simpl; [reflexivity|].
  destruct (matches mealId A m) eqn:Hm.
  - apply matches_true in Hm. destruct Hm as [_ Hown].
    assert (Hnew : owned_by A (update_row f m) = true)
      by (unfold owned_by; simpl; apply Z.eqb_eq; exact Hown).
    assert (Hold : owned_by A m = true)
      by (unfold owned_by; apply Z.eqb_eq; exact Hown).
    rewrite Hnew, Hold. simpl. exact IH.
  - destruct (negb (owned_by A m)); [f_equal|]; exact IH.
Qed.

Lemma other_owners_after_delete (A mealId : Z) (ms : list meal) :
  filter (fun m => negb (owned_by A m))
         (filter (fun m => negb (matches mealId A m)) ms)
  = filter (fun m => negb (owned_by A m)) ms.
Proof.
  induction ms as [|m ms IH]; simpl; [reflexivity|].
  destruct (matches mealId A m) eqn:Hm; simpl.
  - apply matches_true in Hm. destruct Hm as [_ Hown].
    assert (Hold : owned_by A m = true)
      by (unfold owned_by; apply Z.eqb_eq; exact Hown).
    rewrite Hold. simpl. exact IH.
  - destruct (negb (owned_by A m)); [f_equal|]; exact IH.
Qed.

(** Whatever the id, a write by one identity keeps every row of the
    others, in place. *)
Lemma write_keeps_other_owners (d : db) (A mealId : Z) (f : meal_fields) :
  filter (fun m => negb (owned_by A m)) (meals (snd (put_meal A mealId f d)))
    = filter (fun m => negb (owned_by A m)) (meals d)
  /\ filter (fun m => negb (owned_by A m)) (meals (snd (delete_meal A mealId d)))
    = filter (fun m => negb (owned_by A m)) (meals d).
Proof.
  split.
  - unfold put_meal, bind, update_meals.
    destruct (no_values f); [reflexivity|].
    destruct (first_violation _); [reflexivity|]. simpl.
    apply other_owners_after_update.
  - unfold delete_meal, bind, del_meals. simpl.
    apply other_owners_after_delete.
Qed.

(** ** Creating meals *)

Lemma missing_bound_null (v : jsval) :
  is_null (bind_value v) = missing v.
Proof. destruct v; reflexivity. Qed.

(** C8, as the code has it.  [POST /meals] checks no field.  When [name],
    [datetime] or [on_diet] is absent or null the NOT NULL constraint of
    the table rejects the row: nothing is inserted and the handler ends
    without a response.  When the three are present, whatever their
    shape, one row with the next key and the requester's id as [user_id]
    is appended and the answer is 201 "Meal added"; a field given as the
    column keeps it (a text in [name] and [description], a boolean, a
    32-bit integer or non-numeric text in [datetime] and [on_diet]) is
    held by the row as bound. *)
Theorem post_meals_constraints (userId : Z) (f : meal_fields) (d : db) :
  (missing (f_name f) || missing (f_datetime f) || missing (f_on_diet f) = true ->
   exists column,
     post_meals userId f d = (Err (NotNullConstraint column), d))
  /\ (missing (f_name f) || missing (f_datetime f) || missing (f_on_diet f) = false ->
      exists m,
        post_meals userId f d =
          (Ok (mkResponse 201 (JMessage "Meal added")),
           mkDb (users d) (users_seq d) (meals d ++ [m]) (m_id m))
        /\ m_user_id m = userId
        /\ m_id m = meals_seq d + 1
        /\ (text_value (f_name f) = true ->
            m_name m = bind_value (f_name f))
        /\ (text_value (f_description f) = true ->
            m_description m = bind_value (f_description f))
        /\ (numeric_value (f_datetime f) = true ->
            m_datetime m = bind_value (f_datetime f))
        /\ (numeric_value (f_on_diet f) = true ->
            m_on_diet m = bind_value (f_on_diet f))).
Proof.
  rewrite post_meals_unfold. unfold meal_not_null.
  rewrite missing_store_text, !missing_store_numeric. split; intros H.
  - destruct (missing (f_name f)); [eexists; reflexivity|].
    destruct (missing (f_datetime f)); [eexists; reflexivity|].
    destruct (missing (f_on_diet f)); [eexists; reflexivity|].
    discriminate H.
  - apply orb_false_iff in H. destruct H as [H H3].
    apply orb_false_iff in H. destruct H as [H1 H2].
    rewrite H1, H2, H3.
    exists (mkMeal (meals_seq d + 1) (store_text (f_name f))
                   (store_text (f_description f)) (store_numeric (f_datetime f))
                   (store_numeric (f_on_diet f)) userId).
    split; [reflexivity|]. split; [reflexivity|]. split; [reflexivity|].
    simpl. split; [apply text_value_kept|].
    split; [apply text_value_kept|].
    split; apply numeric_value_kept.
Qed.

Lemma post_meals_constraints_witness :
  (missing (f_name nameless_fields) || missing (f_datetime nameless_fields)
   || missing (f_on_diet nameless_fields) = true)
  /\ (exists column,
         post_meals 1 nameless_fields sample_db
         = (Err (NotNullConstraint column), sample_db))
  /\ (missing (f_name sample_fields) || missing (f_datetime sample_fields)
      || missing (f_on_diet sample_fields) = false)
  /\ (exists m,
         fst (post_meals 2 sample_fields sample_db)
         = Ok (mkResponse 201 (JMessage "Meal added"))
         /\ meals (snd (post_meals 2 sample_fields sample_db))
            = (meals sample_db ++ [m])%list
         /\ m_user_id m = 2).
Proof.
  split; [reflexivity|]. split.
  - destruct (post_meals_constraints 1 nameless_fields sample_db) as [Hmiss _].
    apply Hmiss. reflexivity.
  - split; [reflexivity|].
    destruct (post_meals_constraints 2 sample_fields sample_db) as [_ Hok].
    destruct (Hok eq_refl) as [m [Hrun [Hown _]]].
    exists m. rewrite Hrun. simpl. auto.
Defined.

(** C8 fails as stated: a body whose [on_diet] is the string "maybe" is
    not of the required shape, yet it is answered 201 and its row is
    stored; a body without a name ends with no response, so with no
    ValidationError either. *)
Lemma post_meals_no_validation :
  spec_valid_fields malformed_fields = false
  /\ post_meals 1 malformed_fields sample_db =
       (Ok (mkResponse 201 (JMessage "Meal added")),
        mkDb sample_users 2
             (sample_meals ++
              [mkMeal 4 (JStr "snack") JNull (JStr "2024-01-02T10:00")
                      (JStr "maybe") 1])
             4)
  /\ failure_kind (fst (post_meals 1 malformed_fields sample_db))
     <> Some ValidationError
  /\ spec_valid_fields nameless_fields = false
  /\ failure_kind (fst (post_meals 1 nameless_fields sample_db))
     <> Some ValidationError.
Proof.
  repeat split; try reflexivity; vm_compute; discriminate.
Qed.

(** ** Registration *)

Lemma jsval_eqb_eq (a b : jsval) : jsval_eqb a b = true <-> a = b.
Proof.
  destruct a, b; simpl; split; intros H;
    try reflexivity; try discriminate H.
  - apply Bool.eqb_prop in H. subst. reflexivity.
  - inversion H. apply Bool.eqb_reflx.
  - apply Z.eqb_eq in H. subst. reflexivity.
  - inversion H. apply Z.eqb_refl.
  - apply String.eqb_eq in H. subst. reflexivity.
  - inversion H. apply String.eqb_refl.
Qed.

Lemma email_taken_iff (email : jsval) (us : list user) :
  email_taken email us = true <-> exists u, In u us /\ u_email u = email.
Proof.
  unfold email_taken. rewrite existsb_exists. split.
  - intros [u [Hin Heq]]. exists u. split; [exact Hin|].
    apply jsval_eqb_eq. exact Heq.
  - intros [u [Hin Heq]]. exists u. split; [exact Hin|].
    apply jsval_eqb_eq. exact Heq.
Qed.




(** ** Login *)

Lemma find_email_none (email : string) (us : list user) :
  unknown_email email us ->
  find (fun u => jsval_eqb (u_email u) (JStr email)) us = None.
Proof.
  unfold unknown_email. induction us as [|x us IH]; intros Hno; simpl.
  - reflexivity.
  - destruct (jsval_eqb (u_email x) (JStr email)) eqn:Hx.
    + apply jsval_eqb_eq in Hx. exfalso. apply (Hno x); [left; reflexivity | exact Hx].
    + apply IH. intros u Hin. apply Hno. right. exact Hin.
Qed.

Lemma find_email_unique (email : jsval) (us : list user) (u : user) :
  NoDup (map u_email us) -> In u us -> u_email u = email ->
  find (fun x => jsval_eqb (u_email x) email) us = Some u.
Proof.
  induction us as [|x us IH]; intros Hnd Hin Heq; simpl.
  - destruct Hin.
  - inversion Hnd as [|? ? Hx Hnd']; subst.
    destruct Hin as [->|Hin].
    + assert (H : jsval_eqb (u_email u) (u_email u) = true)
        by (apply jsval_eqb_eq; reflexivity).
      rewrite H. reflexivity.
    + destruct (jsval_eqb (u_email x) (u_email u)) eqn:Hxu.
      * apply jsval_eqb_eq in Hxu. exfalso. apply Hx. rewrite Hxu.
        apply in_map. exact Hin.
      * apply IH; auto.
Qed.

Section Login.

Variable bcrypt_compare : string -> string -> bool.
Variable hs256 : string -> claims -> string.
Variable JWT_SECRET : option string.
Variable now : Z.

Lemma post_login_unfold (email secret : string) (d : db) :
  post_login bcrypt_compare hs256 JWT_SECRET now
             (mkLoginFields (JStr email) (JStr secret)) d =
  match find (fun u => jsval_eqb (u_email u) (JStr email)) (users d) with
  | None => (Ok invalid_credentials, d)
  | Some u =>
      match u_password u with
      | JStr h =>
          if bcrypt_compare secret h
          then match jwt_sign hs256 JWT_SECRET (u_id u) now with
               | Ok t => (Ok (res_json (JToken t)), d)
               | Err e => (Err e, d)
               end
          else (Ok invalid_credentials, d)
      | _ => (Err BcryptIllegalArguments, d)
      end
  end.
Proof.
  unfold post_login, bind, first_user. simpl.
  destruct (find _ (users d)) as [u|]; [|reflexivity].
  unfold compare_password. simpl.
  destruct (u_password u); try reflexivity.
  unfold ret. destruct (bcrypt_compare secret s); [|reflexivity].
  destruct (jwt_sign hs256 JWT_SECRET (u_id u) now); reflexivity.
Qed.

(** C9, as the code has it.  A login whose email and secret are strings
    is refused with one and the same response, 401 "Invalid credentials"
    (kind Unauthorized), when no identity has the email and when an
    identity has it but [bcrypt.compare] of the secret with the stored
    hash fails.  With a signing secret configured the login succeeds
    exactly when some identity has the email and that comparison
    succeeds, and it then answers 200 with the token [jwt.sign] makes for
    that identity. *)
Theorem login_same_refusal (email secret : string) (d : db) :
  NoDup (map u_email (users d)) ->
  (unknown_email email (users d) ->
   post_login bcrypt_compare hs256 JWT_SECRET now
              (mkLoginFields (JStr email) (JStr secret)) d
   = (Ok invalid_credentials, d))
  /\ (forall u h,
        In u (users d) -> u_email u = JStr email -> u_password u = JStr h ->
        bcrypt_compare secret h = false ->
        post_login bcrypt_compare hs256 JWT_SECRET now
                   (mkLoginFields (JStr email) (JStr secret)) d
        = (Ok invalid_credentials, d))
  /\ failure_kind (Ok invalid_credentials) = Some Unauthorized
  /\ (forall u h,
        In u (users d) -> u_email u = JStr email -> u_password u = JStr h ->
        bcrypt_compare secret h = true ->
        post_login bcrypt_compare hs256 JWT_SECRET now
                   (mkLoginFields (JStr email) (JStr secret)) d
        = match jwt_sign hs256 JWT_SECRET (u_id u) now with
          | Ok t => (Ok (res_json (JToken t)), d)
          | Err e => (Err e, d)
          end)
  /\ (forall o d',
        post_login bcrypt_compare hs256 JWT_SECRET now
                   (mkLoginFields (JStr email) (JStr secret)) d = (o, d') ->
        succeeded o = true ->
        exists u h t,
          In u (users d) /\ u_email u = JStr email /\ u_password u = JStr h
          /\ bcrypt_compare secret h = true
          /\ jwt_sign hs256 JWT_SECRET (u_id u) now = Ok t
          /\ o = Ok (res_json (JToken t)) /\ d' = d)
  /\ (forall key,
        JWT_SECRET = Some key -> key <> "" ->
        (succeeded
           (fst (post_login bcrypt_compare hs256 JWT_SECRET now
                            (mkLoginFields (JStr email) (JStr secret)) d))
         = true <->
         exists u h,
           In u (users d) /\ u_email u = JStr email /\ u_password u = JStr h
           /\ bcrypt_compare secret h = true)
        /\ (forall u h,
              In u (users d) -> u_email u = JStr email ->
              u_password u = JStr h -> bcrypt_compare secret h = true ->
              post_login bcrypt_compare hs256 JWT_SECRET now
                         (mkLoginFields (JStr email) (JStr secret)) d
              = (Ok (mkResponse 200
                       (JToken
                          (mkToken
                             (mkClaims (u_id u) now (now + 86400))
                             (hs256 key
                                (mkClaims (u_id u) now (now + 86400)))))),
                 d))).
Proof.
  intros Hnd.
  assert (Hpass : forall u h,
    In u (users d) -> u_email u = JStr email -> u_password u = JStr h ->
    bcrypt_compare secret h = true ->
    post_login bcrypt_compare hs256 JWT_SECRET now
               (mkLoginFields (JStr email) (JStr secret)) d
    = match jwt_sign hs256 JWT_SECRET (u_id u) now with
      | Ok t => (Ok (res_json (JToken t)), d)
      | Err e => (Err e, d)
      end).
  { intros u h Hin Hmail Hpw Hcmp.
    rewrite post_login_unfold, (find_email_unique _ _ u Hnd Hin Hmail).
    rewrite Hpw, Hcmp. reflexivity. }
  assert (Hback : forall o d',
    post_login bcrypt_compare hs256 JWT_SECRET now
               (mkLoginFields (JStr email) (JStr secret)) d = (o, d') ->
    succeeded o = true ->
    exists u h t,
      In u (users d) /\ u_email u = JStr email /\ u_password u = JStr h
      /\ bcrypt_compare secret h = true
      /\ jwt_sign hs256 JWT_SECRET (u_id u) now = Ok t
      /\ o = Ok (res_json (JToken t)) /\ d' = d).
  { intros o d' Hrun Hok. rewrite post_login_unfold in Hrun.
    destruct (find _ (users d)) as [u|] eqn:Hfind.
    2:{ inversion Hrun; subst. discriminate Hok. }
    apply find_some in Hfind. destruct Hfind as [Hin Hmail].
    apply jsval_eqb_eq in Hmail.
    destruct (u_password u) as [| | | |h] eqn:Hpw;
      try (inversion Hrun; subst; discriminate Hok).
    destruct (bcrypt_compare secret h) eqn:Hcmp.
    2:{ inversion Hrun; subst. discriminate Hok. }
    destruct (jwt_sign hs256 JWT_SECRET (u_id u) now) as [t|e] eqn:Hiss.
    + inversion Hrun; subst. exists u, h, t. repeat split; assumption.
    + inversion Hrun; subst. discriminate Hok. }
  split; [|split; [|split; [reflexivity|split; [exact Hpass|split; [exact Hback|]]]]].
  - intros Hno. rewrite post_login_unfold, (find_email_none _ _ Hno).
    reflexivity.
  - intros u h Hin Hmail Hpw Hcmp.
    rewrite post_login_unfold, (find_email_unique _ _ u Hnd Hin Hmail).
    rewrite Hpw, Hcmp. reflexivity.
  - intros key Hsecret Hkey.
    assert (Hsign : forall id,
      jwt_sign hs256 JWT_SECRET id now
      = Ok (mkToken (mkClaims id now (now + 86400))
                    (hs256 key (mkClaims id now (now + 86400))))).
    { intros id. unfold jwt_sign. rewrite Hsecret.
      apply String.eqb_neq in Hkey. rewrite Hkey. reflexivity. }
    split.
    + split.
      * intros Hok.
        destruct (post_login bcrypt_compare hs256 JWT_SECRET now
                    (mkLoginFields (JStr email) (JStr secret)) d)
          as [o d'] eqn:Hrun.
        destruct (Hback o d' eq_refl Hok) as [u [h [t [Hin [Hm [Hp [Hc _]]]]]]].
        exists u, h. repeat split; assumption.
      * intros [u [h [Hin [Hm [Hp Hc]]]]].
        rewrite (Hpass u h Hin Hm Hp Hc), Hsign. reflexivity.
    + intros u h Hin Hm Hp Hc.
      rewrite (Hpass u h Hin Hm Hp Hc), Hsign. reflexivity.
Qed.

End Login.

Lemma sample_emails : NoDup (map u_email (users sample_db)).
Proof.
  simpl. repeat constructor; simpl; intuition discriminate.
Defined.

Lemma login_same_refusal_witness :
  NoDup (map u_email (users sample_db))
  /\ post_login sample_compare sample_hs256 (Some "key") 1000
       (mkLoginFields (JStr "nobody@example.com") (JStr "a")) sample_db
     = (Ok invalid_credentials, sample_db)
  /\ post_login sample_compare sample_hs256 (Some "key") 1000
       (mkLoginFields (JStr "ana@example.com") (JStr "b")) sample_db
     = (Ok invalid_credentials, sample_db)
  /\ post_login sample_compare sample_hs256 (Some "key") 1000
       (mkLoginFields (JStr "ana@example.com") (JStr "a")) sample_db
     = (Ok (mkResponse 200
              (JToken (mkToken (mkClaims 1 1000 87400) "key"))),
        sample_db).
Proof.
  split; [exact sample_emails|]. split; [|split].
  - destruct (login_same_refusal sample_compare sample_hs256 (Some "key") 1000
                "nobody@example.com" "a" sample_db sample_emails) as [Hno _].
    apply Hno. intros u [<-|[<-|[]]]; simpl; discriminate.
  - destruct (login_same_refusal sample_compare sample_hs256 (Some "key") 1000
                "ana@example.com" "b" sample_db sample_emails) as [_ [Hbad _]].
    apply (Hbad (mkUser 1 (JStr "Ana") (JStr "ana@example.com") (JStr "hash-a"))
                "hash-a").
    + left. reflexivity.
    + reflexivity.
    + reflexivity.
    + reflexivity.
  - destruct (login_same_refusal sample_compare sample_hs256 (Some "key") 1000
                "ana@example.com" "a" sample_db sample_emails)
      as [_ [_ [_ [_ [_ Hkey]]]]].
    destruct (Hkey "key" eq_refl) as [_ Hgood]; [discriminate|].
    apply (Hgood (mkUser 1 (JStr "Ana") (JStr "ana@example.com") (JStr "hash-a"))
                 "hash-a").
    + left. reflexivity.
    + reflexivity.
    + reflexivity.
    + reflexivity.
Defined.

(** C9 fails as stated: with the password left out of the body, a login
    for an email no identity has is answered 401 "Invalid credentials",
    while a login for the email of identity 1 ends on the rejected
    [bcrypt.compare] and sends nothing, so the two refusals can be told
    apart; and with the email left out the handler ends on the rejected
    query, not on the 401. *)
Lemma post_login_refusals_differ :
  post_login sample_compare sample_hs256 (Some "key") 1000
    (mkLoginFields (JStr "nobody@example.com") JUndefined) sample_db
  = (Ok invalid_credentials, sample_db)
  /\ post_login sample_compare sample_hs256 (Some "key") 1000
       (mkLoginFields (JStr "ana@example.com") JUndefined) sample_db
     = (Err BcryptIllegalArguments, sample_db)
  /\ failure_kind
       (fst (post_login sample_compare sample_hs256 (Some "key") 1000
               (mkLoginFields (JStr "ana@example.com") JUndefined) sample_db))
     <> failure_kind
          (fst (post_login sample_compare sample_hs256 (Some "key") 1000
                  (mkLoginFields (JStr "nobody@example.com") JUndefined)
                  sample_db))
  /\ post_login sample_compare sample_hs256 (Some "key") 1000
       (mkLoginFields JUndefined (JStr "a")) sample_db
     = (Err (UndefinedBinding "email"), sample_db).
Proof.
  repeat split; try reflexivity. vm_compute. discriminate.
Qed.

(** ** Session tokens *)

Lemma jwt_verify_signed (hs256 : string -> claims -> string)
      (key : string) (payload : claims) (now : Z) :
  key <> "" ->
  jwt_verify hs256 (Some key) (Some (Jwt (mkToken payload (hs256 key payload)))) now
  = if now >=? c_exp payload then inl TokenExpiredError else inr payload.
Proof.
  intros Hkey. unfold jwt_verify. simpl.
  apply String.eqb_neq in Hkey. rewrite Hkey, String.eqb_refl. reflexivity.
Qed.

(** C6. With a signing secret configured, [jwt.sign] for an identity
    yields a token whose expiry is 24 hours after the clock at issuance;
    presented as a bearer token it passes [authenticate] with that same
    identity at the instant of issuance and at every instant before the
    expiry, and from the expiry instant on it is refused with
    401 "Invalid token" (kind Unauthorized). *)
Theorem issued_token_valid_until_expiry
        (hs256 : string -> claims -> string)
        (key : string) (id issued : Z) :
  key <> "" ->
  exists tok,
    jwt_sign hs256 (Some key) id issued = Ok tok
    /\ c_id (t_payload tok) = id
    /\ c_exp (t_payload tok) = issued + 24 * 60 * 60
    /\ authenticate hs256 (Some key) (bearer tok) issued = inr id
    /\ (forall now, now < issued + 24 * 60 * 60 ->
        authenticate hs256 (Some key) (bearer tok) now = inr id)
    /\ (forall now, issued + 24 * 60 * 60 <= now ->
        authenticate hs256 (Some key) (bearer tok) now = inl invalid_token)
    /\ failure_kind (Ok invalid_token) = Some Unauthorized.
Proof.
  intros Hkey.
  exists (mkToken (mkClaims id issued (issued + 86400))
                  (hs256 key (mkClaims id issued (issued + 86400)))).
  assert (Hrun : forall now,
    authenticate hs256 (Some key)
      (bearer (mkToken (mkClaims id issued (issued + 86400))
                       (hs256 key (mkClaims id issued (issued + 86400))))) now
    = if now >=? issued + 86400 then inl invalid_token else inr id).
  { intros now. unfold authenticate, bearer. simpl no_header. cbv iota.
    simpl nth_error. rewrite (jwt_verify_signed hs256 key _ now Hkey).
    simpl c_exp. destruct (now >=? issued + 86400); reflexivity. }
  repeat split.
  - unfold jwt_sign. apply String.eqb_neq in Hkey. rewrite Hkey. reflexivity.
  - rewrite Hrun. destruct (Z.geb_spec issued (issued + 86400)); [lia|reflexivity].
  - intros now Hnow. rewrite Hrun.
    destruct (Z.geb_spec now (issued + 86400)); [lia|reflexivity].
  - intros now Hnow. rewrite Hrun.
    destruct (Z.geb_spec now (issued + 86400)); [reflexivity|lia].
Qed.

Lemma issued_token_valid_until_expiry_witness :
  "key" <> ""
  /\ exists tok,
       jwt_sign sample_hs256 (Some "key") 1 1000 = Ok tok
       /\ authenticate sample_hs256 (Some "key") (bearer tok) 1000 = inr 1
       /\ authenticate sample_hs256 (Some "key") (bearer tok) 87400
          = inl invalid_token.
Proof.
  assert (Hkey : "key" <> "") by discriminate.
  split; [exact Hkey|].
  destruct (issued_token_valid_until_expiry sample_hs256 "key" 1 1000 Hkey)
    as [tok [Hsign [_ [_ [Hnow [_ [Hlate _]]]]]]].
  exists tok. split; [exact Hsign|]. split; [exact Hnow|].
  apply Hlate. lia.
Defined.

(** ** The invariant holds in every state the handlers reach *)

Lemma NoDup_snoc {A : Type} (l : list A) (x : A) :
  NoDup l -> ~ In x l -> NoDup (l ++ [x]).
Proof.
  induction l as [|y l IH]; intros Hnd Hx; simpl.
  - constructor; [intros [] | constructor].
  - inversion Hnd as [|? ? Hy Hnd']; subst. constructor.
    + intros Hin. apply in_app_or in Hin. destruct Hin as [Hin|[->|[]]].
      * exact (Hy Hin).
      * apply Hx. left. reflexivity.
    + apply IH; [exact Hnd'|]. intros Hin. apply Hx. right. exact Hin.
Qed.

Lemma fresh_id_not_in {A : Type} (key : A -> Z) (l : list A) (seq : Z) :
  Forall (fun x => key x <= seq) l -> ~ In (seq + 1) (map key l).
Proof.
  intros Hall Hin. apply in_map_iff in Hin. destruct Hin as [x [Hkey Hin]].
  rewrite Forall_forall in Hall. specialize (Hall x Hin). lia.
Qed.

Lemma NoDup_ids_filter (p : meal -> bool) (ms : list meal) :
  NoDup (map m_id ms) -> NoDup (map m_id (filter p ms)).
Proof.
  induction ms as [|m ms IH]; intros Hnd; simpl; [constructor|].
  inversion Hnd as [|? ? Hm Hnd']; subst.
  destruct (p m); simpl; [constructor|]; auto.
  intros Hin. apply Hm. apply in_map_iff in Hin.
  destruct Hin as [x [Hx Hin]]. apply filter_In in Hin.
  apply in_map_iff. exists x. tauto.
Qed.

Lemma update_keeps_ids (id uid : Z) (f : meal_fields) (ms : list meal) :
  map m_id (map (fun m => if matches id uid m then update_row f m else m) ms)
  = map m_id ms.
Proof.
  rewrite map_map. apply map_ext. intros m.
  destruct (matches id uid m); reflexivity.
Qed.

Lemma post_meals_wf (userId : Z) (f : meal_fields) (d : db) :
  wf_db d -> wf_db (snd (post_meals userId f d)).
Proof.
  intros [Hids Hseq Huids Huseq Hmails]. rewrite post_meals_unfold.
  destruct (meal_not_null _ _ _); simpl; [constructor; assumption|].
  constructor; simpl; try assumption.
  - rewrite map_app. simpl. apply NoDup_snoc; [exact Hids|].
    apply fresh_id_not_in. exact Hseq.
  - apply Forall_app. split.
    + eapply Forall_impl; [|exact Hseq]. simpl. intros m Hm. lia.
    + constructor; [simpl; lia | constructor].
Qed.

Lemma put_meal_wf (userId id : Z) (f : meal_fields) (d : db) :
  wf_db d -> wf_db (snd (put_meal userId id f d)).
Proof.
  intros [Hids Hseq Huids Huseq Hmails]. unfold put_meal, bind, update_meals.
  destruct (no_values f); simpl; [constructor; assumption|].
  destruct (first_violation _); simpl; [constructor; assumption|].
  constructor; simpl; try assumption.
  - rewrite update_keeps_ids. exact Hids.
  - apply Forall_forall. intros m Hin. apply in_map_iff in Hin.
    destruct Hin as [x [Hx Hin]]. rewrite Forall_forall in Hseq.
    specialize (Hseq x Hin). subst m.
    destruct (matches id userId x); simpl; exact Hseq.
Qed.

Lemma delete_meal_wf (userId id : Z) (d : db) :
  wf_db d -> wf_db (snd (delete_meal userId id d)).
Proof.
  intros [Hids Hseq Huids Huseq Hmails]. unfold delete_meal, bind, del_meals.
  simpl. constructor; simpl; try assumption.
  - apply NoDup_ids_filter. exact Hids.
  - apply Forall_forall. intros m Hin. apply filter_In in Hin.
    rewrite Forall_forall in Hseq. apply Hseq. tauto.
Qed.

Lemma post_users_wf (bcrypt_hash : string -> Z -> string -> string)
      (salt : string) (b : user_fields) (d : db) :
  wf_db d -> wf_db (snd (post_users bcrypt_hash salt b d)).
Proof.
  intros [Hids Hseq Huids Huseq Hmails].
  unfold post_users, bind, hash_password.
  destruct (r_password b); simpl; try (constructor; assumption).
  unfold insert_user.
  destruct (is_null (store_text (r_name b))); simpl; [constructor; assumption|].
  destruct (is_null (store_text (r_email b))); simpl; [constructor; assumption|].
  destruct (email_taken _ _) eqn:Htaken; simpl; [constructor; assumption|].
  constructor; simpl; try assumption.
  - rewrite map_app. simpl. apply NoDup_snoc; [exact Huids|].
    apply fresh_id_not_in. exact Huseq.
  - apply Forall_app. split.
    + eapply Forall_impl; [|exact Huseq]. simpl. intros u Hu. lia.
    + constructor; [simpl; lia | constructor].
  - rewrite map_app. simpl. apply NoDup_snoc; [exact Hmails|].
    intros Hin. apply in_map_iff in Hin. destruct Hin as [u [Hu Hin]].
    assert (Hyes : email_taken (store_text (r_email b)) (users d) = true)
      by (apply email_taken_iff; exists u; tauto).
    rewrite Hyes in Htaken. discriminate Htaken.
Qed.

Lemma empty_db_wf : wf_db empty_db.
Proof.
  constructor; simpl; constructor.
Qed.

Lemma readers_keep_db (userId id : Z) (d : db) :
  snd (get_meals userId d) = d
  /\ snd (get_meal userId id d) = d
  /\ snd (get_metrics userId d) = d.
Proof.
  repeat split. rewrite get_meal_unfold.
  destruct (find _ (meals d)); reflexivity.
Qed.

(** ** More on the metrics *)

Lemma spec_scan_ge_best (flags : list bool) (best current : Z) :
  best <= spec_scan flags best current.
Proof.
  revert best current.
  induction flags as [|x flags IH]; intros best current; simpl; [lia|].
  specialize (IH (Z.max best (if x then current + 1 else 0))
                 (if x then current + 1 else 0)).
  lia.
Qed.

Lemma spec_scan_leading_run (run post : list bool) (best current : Z) :
  current <= best -> forallb (fun b => b) run = true ->
  current + Z.of_nat (List.length run) <= spec_scan (run ++ post) best current.
Proof.
  revert best current.
  induction run as [|x run IH]; intros best current Hle Htrue.
  - simpl. pose proof (spec_scan_ge_best post best current). lia.
  - simpl in Htrue. apply andb_true_iff in Htrue. destruct Htrue as [-> Htrue].
    simpl app. simpl spec_scan. simpl List.length. rewrite Nat2Z.inj_succ.
    specialize (IH (Z.max best (current + 1)) (current + 1)).
    assert (Hmax : current + 1 <= Z.max best (current + 1)) by lia.
    specialize (IH Hmax Htrue). lia.
Qed.

Lemma spec_scan_any_run (pre run post : list bool) (best current : Z) :
  0 <= current <= best -> forallb (fun b => b) run = true ->
  Z.of_nat (List.length run) <= spec_scan (pre ++ run ++ post) best current.
Proof.
  revert best current.
  induction pre as [|x pre IH]; intros best current Hle Htrue.
  - simpl.
    assert (Hcb : current <= best) by lia.
    pose proof (spec_scan_leading_run run post best current Hcb Htrue). lia.
  - simpl. apply IH; [|exact Htrue]. destruct x; lia.
Qed.

Lemma spec_scan_attained (flags : list bool) (best current : Z) :
  0 <= current <= best ->
  spec_scan flags best current = best
  \/ (exists run post,
        flags = (run ++ post)%list /\ forallb (fun b => b) run = true
        /\ spec_scan flags best current = current + Z.of_nat (List.length run))
  \/ (exists pre run post,
        flags = (pre ++ run ++ post)%list /\ forallb (fun b => b) run = true
        /\ spec_scan flags best current = Z.of_nat (List.length run)).
Proof.
  revert best current.
  induction flags as [|x flags IH]; intros best current Hle.
  - left. reflexivity.
  - simpl spec_scan.
    set (c := if x then current + 1 else 0).
    assert (Hc : 0 <= c <= Z.max best c) by (unfold c; destruct x; lia).
    destruct (IH (Z.max best c) c Hc) as [Hb|[Hlead|Hin]].
    + destruct (Z.le_gt_cases c best) as [Hcb|Hcb].
      * left. rewrite Hb. lia.
      * right. left. exists [x], flags. unfold c in Hcb. destruct x; [|lia].
        repeat split. rewrite Hb. unfold c. simpl. lia.
    + destruct Hlead as [run [post [Hfl [Htrue Hval]]]].
      destruct x.
      * right. left. exists (true :: run), post. subst flags.
        repeat split; [exact Htrue|]. rewrite Hval. unfold c.
        simpl List.length. rewrite Nat2Z.inj_succ. lia.
      * right. right. exists [false], run, post. subst flags.
        repeat split; [exact Htrue|]. rewrite Hval. unfold c. lia.
    + destruct Hin as [pre [run [post [Hfl [Htrue Hval]]]]].
      right. right. exists (x :: pre), run, post. subst flags.
      repeat split; assumption.
Qed.

Lemma forallb_map_onDiet (run : list meal) :
  forallb (fun b => b) (map onDiet run) = forallb onDiet run.
Proof.
  induction run as [|m run IH]; simpl; [reflexivity|]. rewrite IH. reflexivity.
Qed.

Lemma bestSequence_scan (ms : list meal) :
  bestSequence ms = spec_scan (map onDiet ms) 0 0.
Proof. unfold bestSequence. apply streak_step_scan. Qed.

(** X1. [bestSequence] is the length of a longest stretch of consecutive
    compliant meals: some stretch of the sequence made only of compliant
    meals has that length, and no such stretch is longer. *)
Theorem bestSequence_longest_run (ms : list meal) :
  (exists pre run post,
      ms = (pre ++ run ++ post)%list /\ forallb onDiet run = true
      /\ bestSequence ms = Z.of_nat (List.length run))
  /\ (forall pre run post,
        ms = (pre ++ run ++ post)%list -> forallb onDiet run = true ->
        Z.of_nat (List.length run) <= bestSequence ms).
Proof.
  rewrite bestSequence_scan. split.
  - assert (H0 : 0 <= 0 <= 0) by lia.
    destruct (spec_scan_attained (map onDiet ms) 0 0 H0) as [Hz|[Hlead|Hin]].
    + exists [], [], ms. repeat split. exact Hz.
    + destruct Hlead as [run [post [Hfl [Htrue Hval]]]].
      apply map_eq_app in Hfl. destruct Hfl as [run' [post' [-> [<- <-]]]].
      exists [], run', post'. rewrite forallb_map_onDiet in Htrue.
      repeat split; [exact Htrue|]. rewrite Hval, length_map. lia.
    + destruct Hin as [pre [run [post [Hfl [Htrue Hval]]]]].
      apply map_eq_app in Hfl. destruct Hfl as [pre' [rest [-> [<- Hrest]]]].
      apply map_eq_app in Hrest. destruct Hrest as [run' [post' [-> [<- <-]]]].
      exists pre', run', post'. rewrite forallb_map_onDiet in Htrue.
      repeat split; [exact Htrue|]. rewrite Hval, length_map. reflexivity.
  - intros pre run post -> Htrue. rewrite !map_app.
    rewrite <- (length_map onDiet run).
    apply spec_scan_any_run; [lia|]. rewrite forallb_map_onDiet. exact Htrue.
Qed.

Lemma inside_bounds (flags : list bool) :
  0 <= spec_inside flags <= Z.of_nat (List.length flags).
Proof.
  induction flags as [|x flags IH]; simpl spec_inside; simpl List.length.
  - lia.
  - rewrite Nat2Z.inj_succ. destruct x; lia.
Qed.

Lemma spec_scan_le_inside (flags : list bool) (best current : Z) :
  0 <= current <= best ->
  spec_scan flags best current <= Z.max best (current + spec_inside flags).
Proof.
  revert best current.
  induction flags as [|x flags IH]; intros best current Hle; simpl.
  - lia.
  - set (c := if x then current + 1 else 0).
    assert (Hc : 0 <= c <= Z.max best c) by (unfold c; destruct x; lia).
    specialize (IH (Z.max best c) c Hc).
    pose proof (inside_bounds flags). unfold c in *. destruct x; lia.
Qed.

(** X2. The four numbers [GET /metrics] computes are consistent: the
    compliant and non-compliant counts are non-negative and add up to the
    total, and the best sequence lies between 0 and the compliant count. *)
Theorem metrics_bounds (ms : list meal) :
  exists total inside outside best,
    metrics ms = JMetrics total inside outside best
    /\ total = Z.of_nat (List.length ms)
    /\ inside + outside = total
    /\ 0 <= inside /\ 0 <= outside
    /\ 0 <= best <= inside.
Proof.
  unfold metrics. do 4 eexists. split; [reflexivity|].
  rewrite inside_count, bestSequence_scan.
  pose proof (inside_bounds (map onDiet ms)) as Hin.
  rewrite length_map in Hin.
  pose proof (spec_scan_ge_best (map onDiet ms) 0 0).
  assert (H0 : 0 <= 0 <= 0) by lia.
  pose proof (spec_scan_le_inside (map onDiet ms) 0 0 H0).
  repeat split; lia.
Qed.

(** X3. The best sequence is 0 exactly when no meal of the sequence is
    compliant (in particular on the empty sequence). *)
Theorem bestSequence_zero_iff (ms : list meal) :
  bestSequence ms = 0 <-> forallb (fun m => negb (onDiet m)) ms = true.
Proof.
  rewrite bestSequence_scan. split.
  - intros Hz. apply forallb_forall. intros m Hin.
    destruct (onDiet m) eqn:Hm; [|reflexivity]. exfalso.
    apply in_split in Hin. destruct Hin as [pre [post ->]].
    assert (H0 : 0 <= 0 <= 0) by lia.
    pose proof (spec_scan_any_run (map onDiet pre) [true] (map onDiet post)
                  0 0 H0 eq_refl) as Hrun.
    rewrite map_app in Hz. simpl map in Hz. rewrite Hm in Hz.
    simpl in Hrun. simpl in Hz. lia.
  - intros Hnone.
    assert (Hins : spec_inside (map onDiet ms) = 0).
    { induction ms as [|m ms IH]; [reflexivity|].
      simpl in Hnone. apply andb_true_iff in Hnone. destruct Hnone as [Hm Hrest].
      apply negb_true_iff in Hm. simpl. rewrite Hm, (IH Hrest). reflexivity. }
    assert (H0 : 0 <= 0 <= 0) by lia.
    pose proof (spec_scan_le_inside (map onDiet ms) 0 0 H0).
    pose proof (spec_scan_ge_best (map onDiet ms) 0 0). lia.
Qed.

(** ** How the meal routes compose *)

Lemma find_app_none {A : Type} (p : A -> bool) (l l' : list A) :
  find p l = None -> find p (l ++ l') = find p l'.
Proof.
  induction l as [|x l IH]; simpl; intros Hnone; [reflexivity|].
  destruct (p x); [discriminate Hnone | apply IH; exact Hnone].
Qed.

Lemma find_through_filter {A : Type} (p q : A -> bool) (l : list A) :
  (forall x, p x = true -> q x = true) ->
  find p l = find p (filter q l).
Proof.
  intros Hpq. induction l as [|x l IH]; simpl; [reflexivity|].
  destruct (p x) eqn:Hp.
  - rewrite (Hpq x Hp). simpl. rewrite Hp. reflexivity.
  - destruct (q x); simpl; [rewrite Hp|]; exact IH.
Qed.

Lemma matches_owned (id uid : Z) (m : meal) :
  matches id uid m = true -> owned_by uid m = true.
Proof.
  intros H. apply matches_true in H. unfold owned_by. apply Z.eqb_eq. tauto.
Qed.

Lemma fresh_id_no_row (uid : Z) (d : db) :
  Forall (fun m => m_id m <= meals_seq d) (meals d) ->
  no_owned_row (meals_seq d + 1) uid (meals d).
Proof.
  intros Hseq m Hin Hid. rewrite Forall_forall in Hseq.
  specialize (Hseq m Hin). lia.
Qed.

Lemma filter_unique_id (id uid : Z) (ms : list meal) (m : meal) :
  NoDup (map m_id ms) ->
  In m ms -> m_id m = id -> m_user_id m = uid ->
  filter (matches id uid) ms = [m].
Proof.
  induction ms as [|x ms IH]; intros Hnd Hin Hid Hown; simpl.
  - destruct Hin.
  - inversion Hnd as [|? ? Hx Hnd']; subst.
    destruct Hin as [->|Hin].
    + assert (Hm : matches (m_id m) (m_user_id m) m = true)
        by (apply matches_true; split; reflexivity).
      rewrite Hm. f_equal. apply no_owned_row_filter.
      intros y Hy Hyid. exfalso. apply Hx. rewrite <- Hyid.
      apply in_map. exact Hy.
    + destruct (matches (m_id m) (m_user_id m) x) eqn:Hx'.
      * apply matches_true in Hx'. destruct Hx' as [Hxid _].
        exfalso. apply Hx. rewrite Hxid. apply in_map. exact Hin.
      * apply IH; auto.
Qed.

Lemma sample_db_wf : wf_db sample_db.
Proof.
  constructor; simpl.
  - repeat constructor; simpl; intuition discriminate.
  - repeat constructor; simpl; lia.
  - repeat constructor; simpl; intuition discriminate.
  - repeat constructor; simpl; lia.
  - repeat constructor; simpl; intuition discriminate.
Defined.

Lemma put_meal_unfold (A id : Z) (f : meal_fields) (d : db) :
  put_meal A id f d =
  if no_values f then (Err EmptyUpdate, d)
  else
    match first_violation
            (map (update_row f) (filter (matches id A) (meals d))) with
    | Some e => (Err e, d)
    | None =>
        (Ok (res_json (JMessage "Meal updated")),
         set_meals d
           (map (fun m => if matches id A m then update_row f m else m)
                (meals d)))
    end.
Proof.
  unfold put_meal, bind, update_meals, ret.
  destruct (no_values f); [reflexivity|].
  destruct (first_violation _); reflexivity.
Qed.

(** X4. Round trip of create and get, for a body whose fields are values
    the columns keep (a text or nothing for [name] and [description]; a
    boolean, a 32-bit integer or non-numeric text for [datetime] and
    [on_diet]): once [POST /meals] has answered, [GET /meals/:id] with the
    new key gives the requester back the row made of the bound body
    fields, and gives any other identity the 404. *)
Theorem create_then_get (A B : Z) (f : meal_fields) (d d' : db) (r : response) :
  wf_db d ->
  text_value (f_name f) = true ->
  text_value (f_description f) = true ->
  numeric_value (f_datetime f) = true ->
  numeric_value (f_on_diet f) = true ->
  post_meals A f d = (Ok r, d') ->
  get_meal A (meals_seq d + 1) d' =
    (Ok (res_json (JMeal (mkMeal (meals_seq d + 1)
                                 (bind_value (f_name f))
                                 (bind_value (f_description f))
                                 (bind_value (f_datetime f))
                                 (bind_value (f_on_diet f)) A))), d')
  /\ (B <> A -> get_meal B (meals_seq d + 1) d' = (Ok meal_not_found, d')).
Proof.
  intros Hwf Hname Hdesc Htime Hdiet Hrun. rewrite post_meals_unfold in Hrun.
  destruct (meal_not_null _ _ _); [discriminate Hrun|].
  inversion Hrun; subst. clear Hrun.
  rewrite (text_value_kept _ Hname), (text_value_kept _ Hdesc).
  rewrite (numeric_value_kept _ Htime), (numeric_value_kept _ Hdiet).
  pose proof (wf_meal_seq d Hwf) as Hseq. split.
  - rewrite get_meal_unfold. simpl meals.
    rewrite find_app_none
      by (apply no_owned_row_find, fresh_id_no_row; exact Hseq).
    simpl. unfold matches. simpl. rewrite !Z.eqb_refl. reflexivity.
  - intros Hneq. rewrite get_meal_unfold. simpl meals.
    rewrite find_app_none
      by (apply no_owned_row_find, fresh_id_no_row; exact Hseq).
    simpl. unfold matches. simpl. apply Z.eqb_neq in Hneq.
    rewrite Z.eqb_refl. rewrite Z.eqb_sym, Hneq. reflexivity.
Qed.

Lemma create_then_get_witness :
  wf_db sample_db
  /\ text_value (f_name sample_fields) = true
  /\ text_value (f_description sample_fields) = true
  /\ numeric_value (f_datetime sample_fields) = true
  /\ numeric_value (f_on_diet sample_fields) = true
  /\ get_meal 2 4 (snd (post_meals 2 sample_fields sample_db)) =
       (Ok (res_json (JMeal (mkMeal 4 (JStr "salad") (JStr "no dressing")
                                    (JStr "2024-01-02T12:00") (JNum 1) 2))),
        snd (post_meals 2 sample_fields sample_db)).
Proof.
  split; [exact sample_db_wf|]. repeat (split; [reflexivity|]).
  exact (proj1 (create_then_get 2 1 sample_fields sample_db _ _ sample_db_wf
                                eq_refl eq_refl eq_refl eq_refl eq_refl)).
Defined.

Lemma set_column_text_kept (new old : jsval) :
  text_value new = true ->
  set_column store_text new old = set_column bind_value new old.
Proof.
  intros H. unfold set_column. rewrite (text_value_kept _ H). reflexivity.
Qed.

Lemma set_column_numeric_kept (new old : jsval) :
  numeric_value new = true ->
  set_column store_numeric new old = set_column bind_value new old.
Proof.
  intros H. unfold set_column. rewrite (numeric_value_kept _ H). reflexivity.
Qed.

(** X5. Round trip of update and get on an owned meal, for a body whose
    fields are values the columns keep (as in X4): when the body carries
    some value and leaves no required column null, [PUT /meals/:id]
    answers 200 and a following get returns the row with its key and owner
    kept, each column being the bound body value, or the old value where
    the body leaves the field out; every other row stays in the table. *)
Theorem update_then_get (A id : Z) (f : meal_fields) (d : db) (m : meal) :
  NoDup (map m_id (meals d)) ->
  In m (meals d) -> m_id m = id -> m_user_id m = A ->
  text_value (f_name f) = true ->
  text_value (f_description f) = true ->
  numeric_value (f_datetime f) = true ->
  numeric_value (f_on_diet f) = true ->
  no_values f = false ->
  meal_not_null (set_column bind_value (f_name f) (m_name m))
                (set_column bind_value (f_datetime f) (m_datetime m))
                (set_column bind_value (f_on_diet f) (m_on_diet m)) = None ->
  exists d',
    put_meal A id f d = (Ok (res_json (JMessage "Meal updated")), d')
    /\ get_meal A id d' =
         (Ok (res_json
                (JMeal (mkMeal id
                          (set_column bind_value (f_name f) (m_name m))
                          (set_column bind_value (f_description f)
                                      (m_description m))
                          (set_column bind_value (f_datetime f) (m_datetime m))
                          (set_column bind_value (f_on_diet f) (m_on_diet m))
                          A))),
          d')
    /\ (forall x, In x (meals d) -> m_id x <> id -> In x (meals d'))
    /\ List.length (meals d') = List.length (meals d).
Proof.
  intros Hnd Hin Hid Hown Hname Hdesc Htime Hdiet Hvals Hnn.
  assert (Hrow : update_row f m =
                 mkMeal id
                   (set_column bind_value (f_name f) (m_name m))
                   (set_column bind_value (f_description f) (m_description m))
                   (set_column bind_value (f_datetime f) (m_datetime m))
                   (set_column bind_value (f_on_diet f) (m_on_diet m)) A).
  { unfold update_row.
    rewrite (set_column_text_kept _ _ Hname), (set_column_text_kept _ _ Hdesc).
    rewrite (set_column_numeric_kept _ _ Htime).
    rewrite (set_column_numeric_kept _ _ Hdiet), Hid, Hown. reflexivity. }
  rewrite put_meal_unfold, Hvals.
  rewrite (filter_unique_id id A (meals d) m Hnd Hin Hid Hown).
  change (map (update_row f) [m]) with [update_row f m]. rewrite Hrow.
  simpl first_violation. rewrite Hnn.
  eexists. split; [reflexivity|]. split; [|split].
  - rewrite get_meal_unfold. simpl meals. rewrite <- Hrow.
    rewrite (find_unique_id id A _ (update_row f m)); [reflexivity| | | |].
    + rewrite update_keeps_ids. exact Hnd.
    + apply in_map_iff. exists m. split; [|exact Hin].
      assert (Hm : matches id A m = true) by (apply matches_true; tauto).
      rewrite Hm. reflexivity.
    + simpl. exact Hid.
    + simpl. exact Hown.
  - intros x Hx Hxid. simpl. apply in_map_iff. exists x. split; [|exact Hx].
    assert (Hm : matches id A x = false) by (apply matches_false; tauto).
    rewrite Hm. reflexivity.
  - simpl. apply length_map.
Qed.

Lemma update_then_get_witness :
  text_value (f_name sample_fields) = true
  /\ numeric_value (f_on_diet sample_fields) = true
  /\ exists d',
    put_meal 1 3 sample_fields sample_db
      = (Ok (res_json (JMessage "Meal updated")), d')
    /\ get_meal 1 3 d' =
         (Ok (res_json (JMeal (mkMeal 3 (JStr "salad") (JStr "no dressing")
                                      (JStr "2024-01-02T12:00") (JNum 1) 1))),
          d').
Proof.
  split; [reflexivity|]. split; [reflexivity|].
  destruct (update_then_get 1 3 sample_fields sample_db
              (mkMeal 3 (JStr "soup") (JStr "lentil") (JStr "2024-01-01T20:00")
                      (JNum 1) 1)
              sample_meal_ids
              (or_intror (or_intror (or_introl eq_refl)))
              eq_refl eq_refl eq_refl eq_refl eq_refl eq_refl eq_refl eq_refl)
    as [d' [Hput [Hget _]]].
  exists d'. split; [exact Hput | exact Hget].
Defined.

(** X6. Delete and get: deleting an owned meal answers 200, after which
    the key is gone for its owner (404), exactly the other rows remain,
    and the key counter does not move back. *)
Theorem delete_then_gone (A id : Z) (d : db) (m : meal) :
  NoDup (map m_id (meals d)) ->
  In m (meals d) -> m_id m = id -> m_user_id m = A ->
  exists d',
    delete_meal A id d = (Ok (res_json (JMessage "Meal deleted")), d')
    /\ get_meal A id d' = (Ok meal_not_found, d')
    /\ (forall x, In x (meals d') <-> In x (meals d) /\ m_id x <> id)
    /\ meals_seq d' = meals_seq d.
Proof.
  intros Hnd Hin Hid Hown.
  unfold delete_meal, bind, del_meals, ret. eexists.
  split; [reflexivity|]. split; [|split].
  - rewrite get_meal_unfold. simpl meals. rewrite no_owned_row_find; [reflexivity|].
    intros x Hx Hxid Hxown. apply filter_In in Hx. destruct Hx as [_ Hneg].
    apply negb_true_iff in Hneg. apply matches_false in Hneg; auto.
  - intros x. simpl meals. rewrite filter_In, negb_true_iff, matches_false.
    split; intros [Hx Hrest]; (split; [exact Hx|]).
    + intros Hxid. apply Hrest; [exact Hxid|].
      assert (x = m); [|subst; reflexivity].
      clear Hrest Hown. subst id.
      induction (meals d) as [|y l IH]; [destruct Hin|].
      simpl in Hnd. inversion Hnd as [|? ? Hy Hnd']; subst.
      destruct Hin as [->|Hin], Hx as [->|Hx].
      * reflexivity.
      * exfalso. apply Hy. rewrite <- Hxid. apply in_map. exact Hx.
      * exfalso. apply Hy. rewrite Hxid. apply in_map. exact Hin.
      * apply IH; assumption.
    + intros Hxid. contradiction.
  - reflexivity.
Qed.

Lemma delete_then_gone_witness :
  exists d',
    delete_meal 1 1 sample_db = (Ok (res_json (JMessage "Meal deleted")), d')
    /\ get_meal 1 1 d' = (Ok meal_not_found, d').
Proof.
  destruct (delete_then_gone 1 1 sample_db
              (mkMeal 1 (JStr "oats") JNull (JStr "2024-01-01T08:00") (JNum 1) 1)
              sample_meal_ids (or_introl eq_refl) eq_refl eq_refl)
    as [d' [Hdel [Hget _]]].
  exists d'. split; [exact Hdel | exact Hget].
Defined.

Lemma filter_owned_after_update (A B id : Z) (f : meal_fields) (ms : list meal) :
  B <> A ->
  filter (owned_by A)
         (map (fun m => if matches id B m then update_row f m else m) ms)
  = filter (owned_by A) ms.
Proof.
  intros Hneq. induction ms as [|m ms IH]; simpl; [reflexivity|].
  destruct (matches id B m) eqn:Hm.
  - apply matches_true in Hm. destruct Hm as [_ Hown].
    assert (Hnew : owned_by A (update_row f m) = false)
      by (unfold owned_by; simpl; apply Z.eqb_neq; lia).
    assert (Hold : owned_by A m = false)
      by (unfold owned_by; apply Z.eqb_neq; lia).
    rewrite Hnew, Hold. exact IH.
  - destruct (owned_by A m); [f_equal|]; exact IH.
Qed.

Lemma filter_owned_after_delete (A B id : Z) (ms : list meal) :
  B <> A ->
  filter (owned_by A) (filter (fun m => negb (matches id B m)) ms)
  = filter (owned_by A) ms.
Proof.
  intros Hneq. induction ms as [|m ms IH]; simpl; [reflexivity|].
  destruct (matches id B m) eqn:Hm; simpl.
  - apply matches_true in Hm. destruct Hm as [_ Hown].
    assert (Hold : owned_by A m = false)
      by (unfold owned_by; apply Z.eqb_neq; lia).
    rewrite Hold. exact IH.
  - destruct (owned_by A m); [f_equal|]; exact IH.
Qed.

Lemma reads_from_owned_rows (A : Z) (d1 d2 : db) :
  filter (owned_by A) (meals d1) = filter (owned_by A) (meals d2) ->
  fst (get_meals A d1) = fst (get_meals A d2)
  /\ (forall id, fst (get_meal A id d1) = fst (get_meal A id d2))
  /\ fst (get_metrics A d1) = fst (get_metrics A d2).
Proof.
  intros Heq. split; [|split].
  - unfold get_meals, bind, select_meals, ret. simpl. rewrite Heq. reflexivity.
  - intros id. rewrite !get_meal_unfold.
    rewrite (find_through_filter (matches id A) (owned_by A) (meals d1))
      by apply matches_owned.
    rewrite (find_through_filter (matches id A) (owned_by A) (meals d2))
      by apply matches_owned.
    rewrite Heq. destruct (find _ _); reflexivity.
  - unfold get_metrics, bind, select_meals, ret. simpl. rewrite Heq. reflexivity.
Qed.

(** X7. What one identity writes is invisible to another: after a create,
    an update or a delete issued by [B], with any key and any body, the
    list, every single meal and the metrics that a different identity [A]
    reads are what they were before. *)
Theorem writes_of_others_invisible (A B : Z) (d d' : db) :
  B <> A ->
  (exists f, d' = snd (post_meals B f d))
  \/ (exists id f, d' = snd (put_meal B id f d))
  \/ (exists id, d' = snd (delete_meal B id d)) ->
  fst (get_meals A d') = fst (get_meals A d)
  /\ (forall id, fst (get_meal A id d') = fst (get_meal A id d))
  /\ fst (get_metrics A d') = fst (get_metrics A d).
Proof.
  intros Hneq Hstep. apply reads_from_owned_rows.
  destruct Hstep as [[f ->]|[[id [f ->]]|[id ->]]].
  - rewrite post_meals_unfold. destruct (meal_not_null _ _ _); [reflexivity|].
    simpl. rewrite filter_app. simpl. unfold owned_by at 2. simpl.
    apply Z.eqb_neq in Hneq. rewrite Hneq. apply app_nil_r.
  - unfold put_meal, bind, update_meals.
    destruct (no_values f); [reflexivity|].
    destruct (first_violation _); [reflexivity|]. simpl.
    apply filter_owned_after_update. exact Hneq.
  - unfold delete_meal, bind, del_meals. simpl.
    apply filter_owned_after_delete. exact Hneq.
Qed.

Lemma writes_of_others_invisible_witness :
  2 <> 1
  /\ fst (get_meals 1 (snd (delete_meal 2 1 sample_db)))
     = fst (get_meals 1 sample_db)
  /\ fst (get_metrics 1 (snd (put_meal 2 3 sample_fields sample_db)))
     = fst (get_metrics 1 sample_db).
Proof.
  assert (Hneq : 2 <> 1) by lia.
  split; [exact Hneq|]. split.
  - apply (writes_of_others_invisible 1 2 sample_db _ Hneq).
    right. right. exists 1. reflexivity.
  - apply (writes_of_others_invisible 1 2 sample_db _ Hneq).
    right. left. exists 3, sample_fields. reflexivity.
Defined.

(** X8. A meal route that ends on a rejected call has written nothing:
    whenever create or update ends without a response the database is the
    one it started from, and delete never ends that way. *)
Theorem rejected_meal_write_changes_nothing
        (A id : Z) (f : meal_fields) (d : db) :
  (forall e d', post_meals A f d = (Err e, d') -> d' = d)
  /\ (forall e d', put_meal A id f d = (Err e, d') -> d' = d)
  /\ (forall e d', delete_meal A id d <> (Err e, d')).
Proof.
  split; [|split].
  - intros e d' Hrun. rewrite post_meals_unfold in Hrun.
    destruct (meal_not_null _ _ _); inversion Hrun; reflexivity.
  - intros e d' Hrun. unfold put_meal, bind, update_meals in Hrun.
    destruct (no_values f); [inversion Hrun; reflexivity|].
    destruct (first_violation _); inversion Hrun; reflexivity.
  - intros e d' Hrun. unfold delete_meal, bind, del_meals, ret in Hrun.
    discriminate Hrun.
Qed.

(** X9. Keys are not reused: in a database that satisfies the invariant,
    a meal created after any delete gets a key larger than every key the
    table held before the delete, the deleted one included. *)
Theorem key_not_reused_after_delete
        (A B id : Z) (f : meal_fields) (d d' : db) (r : response) :
  wf_db d ->
  post_meals B f (snd (delete_meal A id d)) = (Ok r, d') ->
  exists m,
    meals d' = (meals (snd (delete_meal A id d)) ++ [m])%list
    /\ m_id m = meals_seq d + 1
    /\ (forall x, In x (meals d) -> m_id x < m_id m).
Proof.
  intros Hwf Hrun. rewrite post_meals_unfold in Hrun.
  destruct (meal_not_null _ _ _); [discriminate Hrun|].
  inversion Hrun; subst. clear Hrun. eexists. split; [reflexivity|].
  split; [reflexivity|]. intros x Hx. simpl.
  pose proof (wf_meal_seq d Hwf) as Hseq. rewrite Forall_forall in Hseq.
  specialize (Hseq x Hx). lia.
Qed.

Lemma key_not_reused_after_delete_witness :
  wf_db sample_db
  /\ exists m,
       meals (snd (post_meals 1 sample_fields (snd (delete_meal 1 3 sample_db))))
       = (meals (snd (delete_meal 1 3 sample_db)) ++ [m])%list
       /\ m_id m = 4.
Proof.
  split; [exact sample_db_wf|].
  destruct (key_not_reused_after_delete 1 1 3 sample_fields sample_db _ _
              sample_db_wf eq_refl) as [m [Hm [Hid _]]].
  exists m. split; [exact Hm | exact Hid].
Defined.

(** X10. The database invariant (unique keys bounded by the counters,
    unique emails) holds in the empty database and is kept by every route
    that writes: registration, create, update and delete. *)
Theorem writes_keep_invariant
        (bcrypt_hash : string -> Z -> string -> string) (salt : string)
        (b : user_fields) (A id : Z) (f : meal_fields) (d : db) :
  wf_db d ->
  wf_db empty_db
  /\ wf_db (snd (post_users bcrypt_hash salt b d))
  /\ wf_db (snd (post_meals A f d))
  /\ wf_db (snd (put_meal A id f d))
  /\ wf_db (snd (delete_meal A id d)).
Proof.
  intros Hwf. split; [apply empty_db_wf|].
  split; [apply post_users_wf; exact Hwf|].
  split; [apply post_meals_wf; exact Hwf|].
  split; [apply put_meal_wf | apply delete_meal_wf]; exact Hwf.
Qed.

Lemma writes_keep_invariant_witness :
  wf_db sample_db
  /\ wf_db (snd (post_meals 1 sample_fields sample_db))
  /\ wf_db (snd (delete_meal 1 1 sample_db)).
Proof.
  split; [exact sample_db_wf|].
  destruct (writes_keep_invariant sample_hash "salt" duplicate_registration
              1 1 sample_fields sample_db sample_db_wf)
    as [_ [_ [Hpost [_ Hdel]]]].
  split; [exact Hpost | exact Hdel].
Defined.

(** ** The authentication gate *)

Section Gate.

Variable hs256 : string -> claims -> string.
Variable JWT_SECRET : option string.

Lemma authenticate_unfold (authHeader : option (list chunk)) (now : Z) :
  authenticate hs256 JWT_SECRET authHeader now =
  if no_header authHeader then inl token_required
  else
    match authHeader with
    | Some fields =>
        match jwt_verify hs256 JWT_SECRET (nth_error fields 1) now with
        | inl _ => inl invalid_token
        | inr decoded => inr (c_id decoded)
        end
    | None => inl invalid_token
    end.
Proof.
  unfold authenticate. destruct (no_header authHeader); [reflexivity|].
  destruct authHeader; reflexivity.
Qed.

(** X11. [authenticate] either refuses or trusts a verified token.  It
    refuses with a 401 and the route handler is not run, the database
    staying as it is; or the second field of the header is a token whose
    signature is the one the configured secret gives and whose expiry is
    still ahead, and the handler runs as the identity in that token. *)
Theorem authenticate_refuses_or_trusts
        (authHeader : option (list chunk)) (now : Z)
        (next : Z -> query response) (d : db) :
  (exists r,
      authenticate hs256 JWT_SECRET authHeader now = inl r
      /\ status r = 401
      /\ guarded hs256 JWT_SECRET authHeader now next d = (Ok r, d))
  \/ (exists fields tok key,
         authHeader = Some fields
         /\ nth_error fields 1 = Some (Jwt tok)
         /\ JWT_SECRET = Some key /\ key <> ""
         /\ t_signature tok = hs256 key (t_payload tok)
         /\ now < c_exp (t_payload tok)
         /\ authenticate hs256 JWT_SECRET authHeader now
            = inr (c_id (t_payload tok))
         /\ guarded hs256 JWT_SECRET authHeader now next d
            = next (c_id (t_payload tok)) d).
Proof.
  unfold guarded. rewrite authenticate_unfold.
  destruct (no_header authHeader) eqn:Hno.
  { left. exists token_required. repeat split. }
  destruct authHeader as [fields|].
  2:{ left. exists invalid_token. repeat split. }
  unfold jwt_verify.
  destruct (nth_error fields 1) as [[s|tok]|] eqn:Hnth;
    try solve [left; exists invalid_token; repeat split].
  destruct JWT_SECRET as [key|] eqn:Hsecret;
    try solve [left; exists invalid_token; repeat split].
  destruct (key =? "")%string eqn:Hkey;
    try solve [left; exists invalid_token; repeat split].
  destruct (t_signature tok =? hs256 key (t_payload tok))%string eqn:Hsig;
    simpl; try solve [left; exists invalid_token; repeat split].
  destruct (Z.geb_spec now (c_exp (t_payload tok))) as [Hexp|Hexp];
    try solve [left; exists invalid_token; repeat split].
  right. exists fields, tok, key.
  apply String.eqb_neq in Hkey. apply String.eqb_eq in Hsig.
  repeat split; auto.
Qed.

(** X12. A forged token is refused: when the signature carried by the
    token is not the one the configured secret gives for its payload, the
    request is answered 401 "Invalid token", whatever the payload, the
    clock and the other fields of the header. *)
Theorem forged_token_refused
        (key : string) (tok : token) (scheme : chunk) (rest : list chunk)
        (now : Z) :
  JWT_SECRET = Some key ->
  t_signature tok <> hs256 key (t_payload tok) ->
  authenticate hs256 JWT_SECRET (Some (scheme :: Jwt tok :: rest)) now
  = inl invalid_token.
Proof.
  intros Hsecret Hsig. rewrite authenticate_unfold.
  assert (Hno : no_header (Some (scheme :: Jwt tok :: rest)) = false)
    by (destruct scheme as [[|a s]|t]; reflexivity).
  rewrite Hno. simpl nth_error. unfold jwt_verify. rewrite Hsecret.
  destruct (key =? "")%string; [reflexivity|].
  apply String.eqb_neq in Hsig. rewrite Hsig. reflexivity.
Qed.

(** X13. Only the second field of the header counts: the scheme word in
    front of the token is not looked at, and fields after the token are
    ignored. *)
Theorem scheme_word_ignored
        (tok : token) (scheme : chunk) (rest : list chunk) (now : Z) :
  authenticate hs256 JWT_SECRET (Some (scheme :: Jwt tok :: rest)) now
  = authenticate hs256 JWT_SECRET (bearer tok) now.
Proof.
  rewrite !authenticate_unfold.
  assert (Hno : no_header (Some (scheme :: Jwt tok :: rest)) = false)
    by (destruct scheme as [[|a s]|t]; reflexivity).
  rewrite Hno. reflexivity.
Qed.

(** X14. Without a signing secret nobody gets in: when [JWT_SECRET] is
    unset or empty every request is refused by [authenticate], and a
    login whose credentials are right ends on the rejected [jwt.sign]
    instead of sending a token. *)
Theorem no_secret_no_session
        (bcrypt_compare : string -> string -> bool)
        (authHeader : option (list chunk)) (now : Z)
        (email secret : string) (d : db) :
  JWT_SECRET = None \/ JWT_SECRET = Some "" ->
  (exists r, authenticate hs256 JWT_SECRET authHeader now = inl r
             /\ status r = 401)
  /\ succeeded
       (fst (post_login bcrypt_compare hs256 JWT_SECRET now
                        (mkLoginFields (JStr email) (JStr secret)) d))
     = false.
Proof.
  intros Hsecret. split.
  - rewrite authenticate_unfold.
    destruct (no_header authHeader); [exists token_required; split; reflexivity|].
    destruct authHeader as [fields|]; [|exists invalid_token; split; reflexivity].
    unfold jwt_verify.
    destruct (nth_error fields 1) as [[s|tok]|];
      try solve [exists invalid_token; split; reflexivity].
    destruct Hsecret as [->| ->]; exists invalid_token; split; reflexivity.
  - rewrite post_login_unfold.
    destruct (find _ (users d)) as [u|]; [|reflexivity].
    destruct (u_password u); try reflexivity.
    destruct (bcrypt_compare secret s); [|reflexivity].
    unfold jwt_sign. destruct Hsecret as [->| ->]; reflexivity.
Qed.

End Gate.

Lemma forged_token_refused_witness :
  Some "key" = Some "key"
  /\ t_signature forged_token <> sample_hs256 "key" (t_payload forged_token)
  /\ authenticate sample_hs256 (Some "key") (bearer forged_token) 1000
     = inl invalid_token.
Proof.
  assert (Hsig : t_signature forged_token
                 <> sample_hs256 "key" (t_payload forged_token))
    by (vm_compute; discriminate).
  split; [reflexivity|]. split; [exact Hsig|].
  exact (forged_token_refused sample_hs256 (Some "key") "key" forged_token
           (Text "Bearer") [] 1000 eq_refl Hsig).
Defined.

Lemma no_secret_no_session_witness :
  (@None string = None \/ @None string = Some "")
  /\ succeeded
       (fst (post_login sample_compare sample_hs256 None 1000
               (mkLoginFields (JStr "ana@example.com") (JStr "a")) sample_db))
     = false.
Proof.
  assert (Hnone : @None string = None \/ @None string = Some "")
    by (left; reflexivity).
  split; [exact Hnone|].
  exact (proj2 (no_secret_no_session sample_hs256 None sample_compare
                  None 1000 "ana@example.com" "a" sample_db Hnone)).
Defined.

(** ** Registration and login together *)

Lemma unknown_email_not_taken (email : string) (us : list user) :
  unknown_email email us -> email_taken (JStr email) us = false.
Proof.
  intros Hno. destruct (email_taken (JStr email) us) eqn:Htaken; [|reflexivity].
  apply email_taken_iff in Htaken. destruct Htaken as [u [Hin Heq]].
  exfalso. exact (Hno u Hin Heq).
Qed.

Lemma post_users_unfold (bcrypt_hash : string -> Z -> string -> string)
      (salt : string) (b : user_fields) (d : db) :
  post_users bcrypt_hash salt b d =
  match r_password b with
  | JStr s =>
      if is_null (store_text (r_name b))
      then (Err (NotNullConstraint "users.name"), d)
      else if is_null (store_text (r_email b))
      then (Err (NotNullConstraint "users.email"), d)
      else if email_taken (store_text (r_email b)) (users d)
      then (Err (UniqueConstraint "users.email"), d)
      else
        (Ok (mkResponse 201 (JMessage "User created")),
         mkDb (users d ++
               [mkUser (users_seq d + 1) (store_text (r_name b))
                       (store_text (r_email b))
                       (JStr (bcrypt_hash s 8 salt))])
              (users_seq d + 1) (meals d) (meals_seq d))
  | _ => (Err BcryptIllegalArguments, d)
  end.
Proof.
  unfold post_users, bind, hash_password, ret, reject, insert_user.
  destruct (r_password b); try reflexivity.
  destruct (is_null (store_text (r_name b))); [reflexivity|].
  destruct (is_null (store_text (r_email b))); [reflexivity|].
  destruct (email_taken _ _); reflexivity.
Qed.

(** X15. Register, log in, call: for an email no identity has yet, when
    [bcrypt.compare] accepts the secret against the hash [bcrypt.hash]
    made of it and a signing secret is configured, registration answers
    201, a login with the same email and secret then answers with a
    token, and that token passes [authenticate] as the new identity at
    every instant before its expiry. *)
Theorem register_login_authenticate
        (bcrypt_hash : string -> Z -> string -> string)
        (bcrypt_compare : string -> string -> bool)
        (hs256 : string -> claims -> string)
        (key salt name email secret : string) (now later : Z) (d : db) :
  key <> "" ->
  unknown_email email (users d) ->
  bcrypt_compare secret (bcrypt_hash secret 8 salt) = true ->
  later < now + 86400 ->
  exists d' tok,
    post_users bcrypt_hash salt
               (mkUserFields (JStr name) (JStr email) (JStr secret)) d
    = (Ok (mkResponse 201 (JMessage "User created")), d')
    /\ post_login bcrypt_compare hs256 (Some key) now
                  (mkLoginFields (JStr email) (JStr secret)) d'
       = (Ok (res_json (JToken tok)), d')
    /\ authenticate hs256 (Some key) (bearer tok) later
       = inr (users_seq d + 1).
Proof.
  intros Hkey Hnew Hcmp Hlater.
  exists (mkDb (users d ++ [mkUser (users_seq d + 1) (JStr name) (JStr email)
                                   (JStr (bcrypt_hash secret 8 salt))])
               (users_seq d + 1) (meals d) (meals_seq d)).
  exists (mkToken (mkClaims (users_seq d + 1) now (now + 86400))
                  (hs256 key (mkClaims (users_seq d + 1) now (now + 86400)))).
  split; [|split].
  - rewrite post_users_unfold. simpl r_password. simpl r_name. simpl r_email.
    change (store_text (JStr name)) with (JStr name).
    change (store_text (JStr email)) with (JStr email).
    rewrite (unknown_email_not_taken _ _ Hnew). reflexivity.
  - rewrite post_login_unfold. simpl users.
    rewrite find_app_none by (apply find_email_none; exact Hnew).
    simpl. rewrite String.eqb_refl. simpl. rewrite Hcmp.
    unfold jwt_sign. apply String.eqb_neq in Hkey. rewrite Hkey. reflexivity.
  - rewrite authenticate_unfold. unfold bearer. simpl no_header. cbv iota.
    simpl nth_error.
    rewrite (jwt_verify_signed hs256 key _ later Hkey). simpl c_exp.
    destruct (Z.geb_spec later (now + 86400)); [lia|reflexivity].
Qed.

Lemma register_login_authenticate_witness :
  "key" <> ""
  /\ unknown_email "cleo@example.com" (users sample_db)
  /\ sample_compare "pw" (sample_hash "pw" 8 "hash-") = true
  /\ 5000 < 1000 + 86400
  /\ exists d' tok,
       post_login sample_compare sample_hs256 (Some "key") 1000
                  (mkLoginFields (JStr "cleo@example.com") (JStr "pw")) d'
       = (Ok (res_json (JToken tok)), d')
       /\ authenticate sample_hs256 (Some "key") (bearer tok) 5000 = inr 3.
Proof.
  assert (Hkey : "key" <> "") by discriminate.
  assert (Hnew : unknown_email "cleo@example.com" (users sample_db))
    by (intros u [<-|[<-|[]]]; simpl; discriminate).
  assert (Hcmp : sample_compare "pw" (sample_hash "pw" 8 "hash-") = true)
    by reflexivity.
  assert (Hlater : 5000 < 1000 + 86400) by lia.
  repeat (split; [assumption|]).
  destruct (register_login_authenticate sample_hash sample_compare sample_hs256
              "key" "hash-" "Cleo" "cleo@example.com" "pw" 1000 5000 sample_db
              Hkey Hnew Hcmp Hlater) as [d' [tok [_ [Hlogin Hauth]]]].
  exists d', tok. split; [exact Hlogin | exact Hauth].
Defined.

Lemma email_not_taken_iff (email : jsval) (us : list user) :
  email_taken email us = false <-> (forall u, In u us -> u_email u <> email).
Proof.
  split.
  - intros Hfree u Hin Heq.
    assert (Htaken : email_taken email us = true)
      by (apply email_taken_iff; exists u; tauto).
    rewrite Htaken in Hfree. discriminate Hfree.
  - intros Hno. destruct (email_taken email us) eqn:Htaken; [|reflexivity].
    apply email_taken_iff in Htaken. destruct Htaken as [u [Hin Heq]].
    exfalso. exact (Hno u Hin Heq).
Qed.

(** X16. When registration succeeds and what it then stores, for a body
    whose name and email are texts or absent: it answers 201 exactly when
    the password is a string, name and email are present and no identity
    has the email; it then appends one row with the next key, the name,
    the email and the bcrypt hash of the password at cost 8, and leaves
    the meals alone; in every other case the database is unchanged. *)
Theorem post_users_outcomes
        (bcrypt_hash : string -> Z -> string -> string)
        (salt : string) (b : user_fields) (d : db) :
  text_value (r_name b) = true ->
  text_value (r_email b) = true ->
  (succeeded (fst (post_users bcrypt_hash salt b d)) = true <->
   (exists s, r_password b = JStr s)
   /\ missing (r_name b) = false /\ missing (r_email b) = false
   /\ (forall u, In u (users d) -> u_email u <> bind_value (r_email b)))
  /\ (succeeded (fst (post_users bcrypt_hash salt b d)) = true ->
      exists s,
        r_password b = JStr s
        /\ post_users bcrypt_hash salt b d =
           (Ok (mkResponse 201 (JMessage "User created")),
            mkDb (users d ++
                  [mkUser (users_seq d + 1) (bind_value (r_name b))
                          (bind_value (r_email b))
                          (JStr (bcrypt_hash s 8 salt))])
                 (users_seq d + 1) (meals d) (meals_seq d)))
  /\ (succeeded (fst (post_users bcrypt_hash salt b d)) = false ->
      snd (post_users bcrypt_hash salt b d) = d).
Proof.
  intros Hname Hmail. rewrite post_users_unfold.
  rewrite (text_value_kept _ Hname), (text_value_kept _ Hmail).
  rewrite !missing_bound_null. rewrite <- email_not_taken_iff.
  destruct (r_password b) as [| | | |s];
    try (split; [split; [discriminate | intros [[s Hs] _]; discriminate Hs]
                | split; [discriminate | reflexivity]]).
  destruct (missing (r_name b));
    [split; [split; [discriminate | intros [_ [H _]]; discriminate H]
            | split; [discriminate | reflexivity]]|].
  destruct (missing (r_email b));
    [split; [split; [discriminate | intros [_ [_ [H _]]]; discriminate H]
            | split; [discriminate | reflexivity]]|].
  destruct (email_taken (bind_value (r_email b)) (users d));
    [split; [split; [discriminate | intros [_ [_ [_ H]]]; discriminate H]
            | split; [discriminate | reflexivity]]|].
  split; [|split].
  - split; [|reflexivity]. intros _. split; [exists s; reflexivity|].
    repeat split.
  - intros _. exists s. split; reflexivity.
  - simpl. discriminate.
Qed.

Lemma post_users_outcomes_witness :
  text_value (r_name duplicate_registration) = true
  /\ text_value (r_email duplicate_registration) = true
  /\ snd (post_users sample_hash "salt" duplicate_registration sample_db)
     = sample_db.
Proof.
  split; [reflexivity|]. split; [reflexivity|].
  destruct (post_users_outcomes sample_hash "salt" duplicate_registration
              sample_db eq_refl eq_refl) as [_ [_ Hfail]].
  apply Hfail. reflexivity.
Defined.

(** X17. A login whose password is not a string behaves differently for
    known and unknown emails: for an email no identity has it is answered
    401 "Invalid credentials", for the email of an identity it ends on
    the rejected [bcrypt.compare] without a response. *)
Theorem login_without_string_secret
        (bcrypt_compare : string -> string -> bool)
        (hs256 : string -> claims -> string) (JWT_SECRET : option string)
        (now : Z) (email : string) (password : jsval) (d : db) :
  (forall s, password <> JStr s) ->
  NoDup (map u_email (users d)) ->
  (unknown_email email (users d) ->
   post_login bcrypt_compare hs256 JWT_SECRET now
              (mkLoginFields (JStr email) password) d
   = (Ok invalid_credentials, d))
  /\ (forall u, In u (users d) -> u_email u = JStr email ->
      post_login bcrypt_compare hs256 JWT_SECRET now
                 (mkLoginFields (JStr email) password) d
      = (Err BcryptIllegalArguments, d)).
Proof.
  intros Hnot Hnd. unfold post_login, bind, first_user. simpl.
  change (store_text (JStr email)) with (JStr email). split.
  - intros Hno. rewrite (find_email_none _ _ Hno). reflexivity.
  - intros u Hin Hmail. rewrite (find_email_unique _ _ u Hnd Hin Hmail).
    unfold compare_password.
    destruct password as [| | | |s]; try reflexivity.
    exfalso. exact (Hnot s eq_refl).
Qed.

Lemma login_without_string_secret_witness :
  (forall s, JUndefined <> JStr s)
  /\ NoDup (map u_email (users sample_db))
  /\ post_login sample_compare sample_hs256 (Some "key") 1000
       (mkLoginFields (JStr "ana@example.com") JUndefined) sample_db
     = (Err BcryptIllegalArguments, sample_db).
Proof.
  assert (Hnot : forall s, JUndefined <> JStr s) by (intros s; discriminate).
  split; [exact Hnot|]. split; [exact sample_emails|].
  destruct (login_without_string_secret sample_compare sample_hs256 (Some "key")
              1000 "ana@example.com" JUndefined sample_db Hnot sample_emails)
    as [_ Hknown].
  apply (Hknown (mkUser 1 (JStr "Ana") (JStr "ana@example.com") (JStr "hash-a"))).
  - left. reflexivity.
  - reflexivity.
Defined.

(** X18. Reading never writes: the list, get and metrics routes and the
    login route, whatever they are sent and however they end, leave the
    database exactly as it was. *)
Theorem reading_routes_keep_db
        (bcrypt_compare : string -> string -> bool)
        (hs256 : string -> claims -> string) (JWT_SECRET : option string)
        (now userId id : Z) (b : login_fields) (d : db) :
  snd (get_meals userId d) = d
  /\ snd (get_meal userId id d) = d
  /\ snd (get_metrics userId d) = d
  /\ snd (post_login bcrypt_compare hs256 JWT_SECRET now b d) = d.
Proof.
  split; [reflexivity|]. split; [|split; [reflexivity|]].
  - rewrite get_meal_unfold. destruct (find _ (meals d)); reflexivity.
  - unfold post_login, bind, first_user.
    destruct (is_undefined (l_email b)); [reflexivity|].
    destruct (find _ (users d)) as [u|]; [|reflexivity].
    unfold compare_password.
    destruct (l_password b); try reflexivity.
    destruct (u_password u); try reflexivity.
    unfold ret. destruct (bcrypt_compare s s0); [|reflexivity].
    destruct (jwt_sign hs256 JWT_SECRET (u_id u) now); reflexivity.
Qed.

(** X19. An email registers once: after a registration that answered 201,
    any further registration with the same email, whatever its name,
    password and salt, does not succeed and leaves the database as it
    is. *)
Theorem second_registration_refused
        (bcrypt_hash : string -> Z -> string -> string)
        (salt salt' : string) (b : user_fields) (name' password' : jsval)
        (d d' : db) (r : response) :
  post_users bcrypt_hash salt b d = (Ok r, d') ->
  succeeded (fst (post_users bcrypt_hash salt'
                             (mkUserFields name' (r_email b) password') d'))
  = false
  /\ snd (post_users bcrypt_hash salt'
                     (mkUserFields name' (r_email b) password') d') = d'.
Proof.
  intros Hrun. rewrite post_users_unfold in Hrun.
  destruct (r_password b) as [| | | |s]; try discriminate Hrun.
  destruct (is_null (store_text (r_name b))); [discriminate Hrun|].
  destruct (is_null (store_text (r_email b))) eqn:Hmail; [discriminate Hrun|].
  destruct (email_taken _ (users d)); [discriminate Hrun|].
  inversion Hrun; subst. clear Hrun.
  rewrite post_users_unfold. simpl r_password. simpl r_name. simpl r_email.
  destruct password' as [| | | |s']; try (split; reflexivity).
  destruct (is_null (store_text name')); [split; reflexivity|].
  rewrite Hmail. simpl users.
  assert (Htaken : email_taken (store_text (r_email b))
                     (users d ++
                      [mkUser (users_seq d + 1) (store_text (r_name b))
                              (store_text (r_email b))
                              (JStr (bcrypt_hash s 8 salt))]) = true).
  { apply email_taken_iff. eexists. split.
    - apply in_or_app. right. left. reflexivity.
    - reflexivity. }
  rewrite Htaken. split; reflexivity.
Qed.

Lemma second_registration_refused_witness :
  exists d',
    fst (post_users sample_hash "s1"
           (mkUserFields (JStr "Cleo") (JStr "cleo@example.com") (JStr "pw"))
           sample_db)
    = Ok (mkResponse 201 (JMessage "User created"))
    /\ d' = snd (post_users sample_hash "s1"
                   (mkUserFields (JStr "Cleo") (JStr "cleo@example.com")
                                 (JStr "pw")) sample_db)
    /\ snd (post_users sample_hash "s2"
              (mkUserFields (JStr "Other") (JStr "cleo@example.com")
                            (JStr "pw2")) d') = d'.
Proof.
  eexists. split; [reflexivity|]. split; [reflexivity|].
  exact (proj2 (second_registration_refused sample_hash "s1" "s2"
                  (mkUserFields (JStr "Cleo") (JStr "cleo@example.com")
                                (JStr "pw"))
                  (JStr "Other") (JStr "pw2") sample_db _ _ eq_refl)).
Defined.

(** ** Repeating a write *)

Lemma bind_value_twice (v : jsval) : bind_value (bind_value v) = bind_value v.
Proof. destruct v; reflexivity. Qed.

Lemma update_row_twice (f : meal_fields) (m : meal) :
  update_row f (update_row f m) = update_row f m.
Proof.
  unfold update_row, set_column. simpl.
  destruct (is_undefined (f_name f)), (is_undefined (f_description f)),
    (is_undefined (f_datetime f)), (is_undefined (f_on_diet f)); reflexivity.
Qed.

Lemma matches_update_row (id uid : Z) (f : meal_fields) (m : meal) :
  matches id uid (update_row f m) = matches id uid m.
Proof. reflexivity. Qed.

Lemma filter_after_update (id uid : Z) (f : meal_fields) (ms : list meal) :
  filter (matches id uid)
         (map (fun m => if matches id uid m then update_row f m else m) ms)
  = map (update_row f) (filter (matches id uid) ms).
Proof.
  induction ms as [|m ms IH]; simpl; [reflexivity|].
  destruct (matches id uid m) eqn:Hm.
  - rewrite matches_update_row, Hm. simpl. f_equal. exact IH.
  - rewrite Hm. exact IH.
Qed.

Lemma update_map_twice (id uid : Z) (f : meal_fields) (ms : list meal) :
  map (fun m => if matches id uid m then update_row f m else m)
      (map (fun m => if matches id uid m then update_row f m else m) ms)
  = map (fun m => if matches id uid m then update_row f m else m) ms.
Proof.
  rewrite map_map. apply map_ext. intros m.
  destruct (matches id uid m) eqn:Hm.
  - rewrite matches_update_row, Hm. apply update_row_twice.
  - rewrite Hm. reflexivity.
Qed.

Lemma delete_filter_twice (id uid : Z) (ms : list meal) :
  filter (fun m => negb (matches id uid m))
         (filter (fun m => negb (matches id uid m)) ms)
  = filter (fun m => negb (matches id uid m)) ms.
Proof.
  induction ms as [|m ms IH]; simpl; [reflexivity|].
  destruct (negb (matches id uid m)) eqn:Hm; simpl.
  - rewrite Hm. f_equal. exact IH.
  - exact IH.
Qed.

(** X20. Update and delete can be repeated: sending the same
    [PUT /meals/:id] or the same [DELETE /meals/:id] a second time ends
    the same way as the first and leaves the database as the first
    left it. *)
Theorem repeated_write_same_result (A id : Z) (f : meal_fields) (d : db) :
  put_meal A id f (snd (put_meal A id f d))
  = (fst (put_meal A id f d), snd (put_meal A id f d))
  /\ delete_meal A id (snd (delete_meal A id d))
     = (fst (delete_meal A id d), snd (delete_meal A id d)).
Proof.
  split.
  - rewrite (put_meal_unfold A id f d).
    destruct (no_values f) eqn:Hvals.
    { simpl. rewrite put_meal_unfold, Hvals. reflexivity. }
    destruct (first_violation (map (update_row f)
                (filter (matches id A) (meals d)))) eqn:Hviol.
    { simpl. rewrite put_meal_unfold, Hvals, Hviol. reflexivity. }
    simpl fst. simpl snd. rewrite put_meal_unfold, Hvals.
    unfold set_meals at 1 2. simpl meals.
    rewrite filter_after_update, map_map.
    rewrite (map_ext _ (update_row f) (update_row_twice f)).
    rewrite Hviol, update_map_twice. reflexivity.
  - unfold delete_meal, bind, del_meals, ret, set_meals. simpl.
    rewrite delete_filter_twice. reflexivity.
Qed.
